(** * Box office drafting dashboard: layout, assets, provisioning, diagnostics

    A shallow embedding of the layout calculator, the dashboard asset
    assembly, the freshness message, the worksheet provisioning hooks, the
    configuration validation loop and the missing-movie diagnostic of the
    box-office-drafting repository. *)

From Stdlib Require Import ZArith Lia List String Ascii Bool.
From Stdlib Require Import Sorting.Mergesort Sorting.Sorted Sorting.Permutation.
Import ListNotations.
Open Scope string_scope.
Open Scope list_scope.
Open Scope Z_scope.

(** ** Layout calculator *)

(** The dict returned by [calculate_picks_table_layout];
    [best_picks_row_num] is [None] when Python leaves it at [None]. *)
Record layout := mk_layout {
  available_height : Z;
  add_both_picks_tables : bool;
  worst_picks_row_num : Z;
  worst_picks_height : Z;
  best_picks_row_num : option Z;
  best_picks_height : Z
}.

Module Gsheet.

(** [GoogleSheetDashboard.calculate_picks_table_layout]
    (src/src/utils/gsheet.py). Python [//] is floor division, i.e. [Z.div]. *)
Definition calculate_picks_table_layout (scoreboard_length released_movies_length
    worst_picks_length best_picks_length : Z) : layout :=
  let available_height := released_movies_length - scoreboard_length - 3 in
  let picks_row_num := 5 + scoreboard_length + 2 in
  let min_rows_per_table := 2 in
  let separator_rows := 2 in
  let total_required := min_rows_per_table * 2 + separator_rows in
  if (total_required <=? available_height) && (1 <? worst_picks_length)
     && (1 <? best_picks_length)
  then
    let usable_height := available_height - 2 - separator_rows in
    let height_per_table := usable_height / 2 in
    let worst_picks_height := Z.min height_per_table worst_picks_length in
    let best_picks_row_num := picks_row_num + 1 + worst_picks_height + separator_rows in
    let best_picks_height := Z.min (usable_height - worst_picks_height) best_picks_length in
    mk_layout available_height true picks_row_num worst_picks_height
      (Some best_picks_row_num) best_picks_height
  else
    let worst_picks_height :=
      if (0 <? available_height) && (1 <? worst_picks_length)
      then Z.min available_height worst_picks_length else 0 in
    mk_layout available_height false picks_row_num worst_picks_height None 0.

End Gsheet.

Module Dashboard.

(** Module-level [calculate_picks_table_layout]
    (src/src/sheets/tabs/dashboard.py), transcribed separately. *)
Definition calculate_picks_table_layout (scoreboard_length released_movies_length
    worst_picks_length best_picks_length : Z) : layout :=
  let available_height := released_movies_length - scoreboard_length - 3 in
  let picks_row_num := 5 + scoreboard_length + 2 in
  let min_rows_per_table := 2 in
  let separator_rows := 2 in
  let total_required := min_rows_per_table * 2 + separator_rows in
  if (total_required <=? available_height) && (1 <? worst_picks_length)
     && (1 <? best_picks_length)
  then
    let usable_height := available_height - 2 - separator_rows in
    let height_per_table := usable_height / 2 in
    let worst_picks_height := Z.min height_per_table worst_picks_length in
    let best_picks_row_num := picks_row_num + 1 + worst_picks_height + separator_rows in
    let best_picks_height := Z.min (usable_height - worst_picks_height) best_picks_length in
    mk_layout available_height true picks_row_num worst_picks_height
      (Some best_picks_row_num) best_picks_height
  else
    let worst_picks_height :=
      if (0 <? available_height) && (1 <? worst_picks_length)
      then Z.min available_height worst_picks_length else 0 in
    mk_layout available_height false picks_row_num worst_picks_height None 0.

End Dashboard.


(** ** Table asset model ([DashboardWorksheet.generate]) *)

(** A cell range [c1..c2] x [r1..r2], columns numbered A = 1, B = 2, ...,
    rows 1-indexed as in A1 notation. *)
Record cell_range := mk_range { c1 : Z; r1 : Z; c2 : Z; r2 : Z }.

Definition in_range (c r : Z) (x : cell_range) : Prop :=
  c1 x <= c <= c2 x /\ r1 x <= r <= r2 x.

(** Two ranges are disjoint when no cell lies in both. *)
Definition range_disjoint (x y : cell_range) : Prop :=
  forall c r, in_range c r x -> in_range c r y -> False.

Definition col_B : Z := 2.
Definition col_F : Z := 6.
Definition col_G : Z := 7.
Definition col_I : Z := 9.
Definition col_X : Z := 24.

Inductive asset_kind := Scoreboard | ReleasedMovies | WorstPicks | BestPicks.

(** A [WorksheetAsset]: which table, its anchor cell, and the shape of the
    dataframe written there (header row plus [asset_rows] data rows). *)
Record asset := mk_asset {
  kind : asset_kind;
  anchor_col : Z;
  anchor_row : Z;
  asset_cols : Z;
  asset_rows : Z
}.

(** [len(df.head(n))] for a dataframe of [len] rows: a negative [n] drops the
    last [-n] rows. *)
Definition head_len (n len : Z) : Z :=
  if 0 <=? n then Z.min n len else Z.max 0 (len + n).

(** [DashboardWorksheet.generate] for tables of the given lengths. The
    scoreboard and the picks tables have 6 columns, released movies 16.
    The [None] branch of [best_picks_row_num] is unreachable: the layout sets
    it whenever [add_both_picks_tables] holds. *)
Definition generate (scoreboard_length released_movies_length
    worst_picks_length best_picks_length : Z) : list asset :=
  let layout := Dashboard.calculate_picks_table_layout scoreboard_length
      released_movies_length worst_picks_length best_picks_length in
  let add_picks_table :=
    (0 <? worst_picks_height layout) && (1 <? worst_picks_length) in
  [mk_asset Scoreboard col_B 4 6 scoreboard_length;
   mk_asset ReleasedMovies col_I 4 16 released_movies_length]
  ++ (if add_picks_table then
        mk_asset WorstPicks col_B (worst_picks_row_num layout) 6
          (head_len (worst_picks_height layout) worst_picks_length)
        :: (if add_both_picks_tables layout then
              match best_picks_row_num layout with
              | Some row =>
                  [mk_asset BestPicks col_B row 6
                     (head_len (best_picks_height layout) best_picks_length)]
              | None => []
              end
            else [])
      else []).

(** The cells an asset's data write and post-write hooks touch.
    - every asset: [write_dataframe] of the header and data rows at the anchor;
    - scoreboard: title B2 merged over B2:F2, data formatting in B..G;
    - released movies: title I2 merged over I2:X2, formatting and the
      conditional format down to [sheet_height = len + 5] in I..X, zero
      clearing in V, and the freshness message in G2;
    - picks tables: title one row above the anchor merged over six columns,
      data formatting in B..G. *)
Definition footprint (a : asset) : list cell_range :=
  let data := mk_range (anchor_col a) (anchor_row a)
                (anchor_col a + asset_cols a - 1) (anchor_row a + asset_rows a) in
  match kind a with
  | Scoreboard =>
      [data; mk_range col_B 2 col_F 2;
       mk_range col_B 5 col_G (4 + asset_rows a)]
  | ReleasedMovies =>
      [data; mk_range col_I 2 col_X 2;
       mk_range col_I 5 col_X (asset_rows a + 5);
       mk_range col_G 2 col_G 2]
  | WorstPicks | BestPicks =>
      [data;
       mk_range (anchor_col a) (anchor_row a - 1) (anchor_col a + 5) (anchor_row a - 1);
       mk_range col_B (anchor_row a + 1) col_G (anchor_row a + asset_rows a)]
  end.

Definition footprints_disjoint (f g : list cell_range) : Prop :=
  Forall (fun x => Forall (fun y => range_disjoint x y) g) f.

Fixpoint pairwise_disjoint (l : list (list cell_range)) : Prop :=
  match l with
  | [] => True
  | f :: rest => Forall (footprints_disjoint f) rest /\ pairwise_disjoint rest
  end.

(** ** Freshness message ([DashboardWorksheet._write_timestamp_metadata]) *)

Definition newline : string := String (ascii_of_nat 10) EmptyString.

(** A "Still In Theaters" cell after [table_to_df]: a string or the missing
    marker [None]. *)
Definition theaters_cell := option string.

Definition eq_No (v : theaters_cell) : bool :=
  match v with
  | Some s => String.eqb s "No"
  | None => false
  end.

(** [dashboard_done_updating]; [df] is [runner_context.get('released_movies_df')]. *)
Definition dashboard_done_updating (df : option (list theaters_cell))
    (year current_year : Z) : bool :=
  match df with
  | None => false
  | Some rows =>
      forallb eq_No rows && (0 <? Z.of_nat (List.length rows)) && (year <? current_year)
  end.

Definition last_updated_text (now_str : string) : string :=
  ("Dashboard Last Updated" ++ newline ++ now_str ++ " UTC")%string.

Definition done_text : string :=
  (newline ++ "Dashboard is done updating" ++ newline
   ++ "and can be removed from the etl")%string.

Definition data_through_text (data_str : string) : string :=
  (newline ++ "Data Updated Through" ++ newline ++ data_str ++ " UTC")%string.

(** The [log_string] written to G2. [now_str] and [data_str] are the
    [strftime(DATETIME_FORMAT)] renderings of the current UTC time and of the
    maximum [published_timestamp_utc]. *)
Definition timestamp_message (df : option (list theaters_cell))
    (year current_year : Z) (now_str data_str : string) : string :=
  let log_string := last_updated_text now_str in
  let log_string :=
    if dashboard_done_updating df year current_year
    then (log_string ++ done_text)%string else log_string in
  (log_string ++ data_through_text data_str)%string.

(** ** Worksheet provisioning ([src/src/sheets/runner.py]) *)

Record worksheet := mk_ws { ws_name : string; ws_rows : Z; ws_cols : Z }.

(** The spreadsheet as its ordered list of worksheets. The operations below
    are the spreadsheet client's ([eftoolkit]) as the runner uses them:
    [create_worksheet] adds a sheet at the end, [delete_worksheet] removes
    it, [resize_sheet] sets its size, and [reorder_worksheets] puts the
    listed sheets that exist first, in the given order, then the others. *)
Definition spreadsheet := list worksheet.

Definition get_worksheet_names (ss : spreadsheet) : list string :=
  map ws_name ss.

Definition mem_name (n : string) (ns : list string) : bool :=
  existsb (String.eqb n) ns.

Definition create_worksheet (n : string) (rows cols : Z) (ss : spreadsheet)
    : spreadsheet :=
  ss ++ [mk_ws n rows cols].

Definition delete_worksheet (n : string) (ss : spreadsheet) : spreadsheet :=
  filter (fun w => negb (String.eqb (ws_name w) n)) ss.

Definition resize_sheet (n : string) (rows cols : Z) (ss : spreadsheet)
    : spreadsheet :=
  map (fun w => if String.eqb (ws_name w) n then mk_ws n rows cols else w) ss.

Definition reorder_worksheets (order : list string) (ss : spreadsheet)
    : spreadsheet :=
  flat_map (fun n => match find (fun w => String.eqb (ws_name w) n) ss with
                     | Some w => [w]
                     | None => []
                     end) order
  ++ filter (fun w => negb (mem_name (ws_name w) order)) ss.

(** [_handle_missing_worksheets], the runner's pre-run hook. *)
Definition handle_missing_worksheets (ss : spreadsheet) : spreadsheet :=
  let existing_worksheets := get_worksheet_names ss in
  let ss := if mem_name "Manual Adds" existing_worksheets then ss
            else create_worksheet "Manual Adds" 100 5 ss in
  let ss := if mem_name "Multipliers and Exclusions" existing_worksheets then ss
            else create_worksheet "Multipliers and Exclusions" 100 3 ss in
  let ss := if mem_name "Dashboard" existing_worksheets
            then delete_worksheet "Dashboard" ss else ss in
  create_worksheet "Dashboard" 500 25 ss.

Definition canonical_order : list string :=
  ["Dashboard"; "Draft"; "Manual Adds"; "Multipliers and Exclusions"].

(** [_adjust_worksheet_order], a post-run hook. *)
Definition adjust_worksheet_order (ss : spreadsheet) : spreadsheet :=
  reorder_worksheets canonical_order ss.

(** [_resize_sheet], a post-run hook; [sheet_height] is
    [runner.context.get('sheet_height', 100)]. *)
Definition resize_dashboard (sheet_height : option Z) (ss : spreadsheet)
    : spreadsheet :=
  let h := match sheet_height with Some h => h | None => 100 end in
  resize_sheet "Dashboard" h 25 ss.

(** One [DashboardRunner.run()] of [run_dashboard], seen from the worksheet
    list: pre-run hook, then the asset writes and formatting (which change
    cells, not the worksheet list), then the post-run hooks in order.
    [generate] stores [sheet_height = len(released_movies_df) + 5] in the
    context before the post-run hooks read it. *)
Definition run_cycle (released_movies_length : Z) (ss : spreadsheet)
    : spreadsheet :=
  let ss := handle_missing_worksheets ss in
  let ss := resize_dashboard (Some (released_movies_length + 5)) ss in
  adjust_worksheet_order ss.

Definition dashboards (ss : spreadsheet) : list worksheet :=
  filter (fun w => String.eqb (ws_name w) "Dashboard") ss.

(** ** Python values, as [yaml.safe_load] and [table_to_df] produce them *)

Inductive py_value :=
| VInt (z : Z)
| VStr (s : string)
| VBool (b : bool)
| VNone
| VOther (type_name : string).

(** Decimal digits of a non-negative integer, most significant first. *)
Fixpoint digits_of (fuel : nat) (n : Z) (acc : string) : string :=
  match fuel with
  | O => acc
  | S f =>
      let acc := String (ascii_of_nat (48 + Z.to_nat (n mod 10))) acc in
      if n <? 10 then acc else digits_of f (n / 10) acc
  end.

(** [str(z)] for a Python int. *)
Definition string_of_Z (z : Z) : string :=
  let fuel := S (Z.to_nat (Z.log2 (Z.abs z))) in
  if z <? 0 then ("-" ++ digits_of fuel (- z) "")%string else digits_of fuel z "".

(** [str(v)]. *)
Definition py_str (v : py_value) : string :=
  match v with
  | VInt z => string_of_Z z
  | VStr s => s
  | VBool true => "True"
  | VBool false => "False"
  | VNone => "None"
  | VOther n => ("<" ++ n ++ ">")%string
  end.

(** [type(v).__name__]. *)
Definition type_name (v : py_value) : string :=
  match v with
  | VInt _ => "int"
  | VStr _ => "str"
  | VBool _ => "bool"
  | VNone => "NoneType"
  | VOther n => n
  end.

(** ** Configuration validation ([src/src/utils/config.py]) *)

Inductive py_type := TInt | TStr.

Definition py_type_name (t : py_type) : string :=
  match t with TInt => "int" | TStr => "str" end.

(** [isinstance(v, t)]; [bool] is a subclass of [int]. *)
Definition isinstance (v : py_value) (t : py_type) : bool :=
  match t, v with
  | TInt, (VInt _ | VBool _) => true
  | TStr, VStr _ => true
  | _, _ => false
  end.

(** A parsed YAML mapping. *)
Definition config := list (string * py_value).

Definition lookup (k : string) (c : config) : option py_value :=
  match find (fun kv => String.eqb (fst kv) k) c with
  | Some kv => Some (snd kv)
  | None => None
  end.

Definition has_key (k : string) (c : config) : bool :=
  match lookup k c with Some _ => true | None => false end.

Definition required_fields : list (string * py_type) :=
  [("year", TInt); ("name", TStr); ("sheet_name", TStr); ("draft_id", TStr);
   ("update_type", TStr); ("gspread_credentials_name", TStr)].

Definition type_error_text (field : string) (t : py_type) (v : py_value) : string :=
  (field ++ ": expected " ++ py_type_name t ++ ", got " ++ type_name v)%string.

(** The loop over [required_fields]: missing field names, then type errors. *)
Fixpoint check_required (fields : list (string * py_type)) (c : config)
    : list string * list string :=
  match fields with
  | [] => ([], [])
  | (field, t) :: rest =>
      let '(missing, type_errors) := check_required rest c in
      match lookup field c with
      | None => (field :: missing, type_errors)
      | Some v =>
          if isinstance v t then (missing, type_errors)
          else (missing, type_error_text field t v :: type_errors)
      end
  end.

Definition int_value (v : py_value) : Z :=
  match v with VInt z => z | VBool true => 1 | _ => 0 end.

(** The checks after the loop: year range, update type, S3 fields. *)
Definition extra_errors (current_year : Z) (c : config) : list string :=
  (match lookup "year" c with
   | Some v =>
       if isinstance v TInt then
         let y := int_value v in
         if (y =? current_year - 1) || (y =? current_year) then []
         else [("year: must be " ++ string_of_Z (current_year - 1) ++ " or "
                ++ string_of_Z current_year ++ ", got " ++ py_str v)%string]
       else []
   | None => []
   end)
  ++ (match lookup "update_type" c with
      | Some (VStr "s3") | Some (VStr "web") => []
      | Some _ => ["update_type: must be 's3' or 'web'"]
      | None => []
      end)
  ++ (match lookup "update_type" c with
      | Some (VStr "s3") =>
          (if has_key "bucket" c then []
           else ["bucket: required when update_type is 's3'"])
          ++ (if has_key "s3_access_key_id_var_name" c then []
              else ["s3_access_key_id_var_name: required when update_type is 's3'"])
          ++ (if has_key "s3_secret_access_key_var_name" c then []
              else ["s3_secret_access_key_var_name: required when update_type is 's3'"])
      | _ => []
      end).

(** [sep.join(l)]. *)
Definition join (sep : string) (l : list string) : string := String.concat sep l.

Definition validation_message (missing type_errors : list string) : string :=
  let errors :=
    match missing with
    | [] => []
    | _ => [("Missing required fields: " ++ join ", " missing)%string]
    end
    ++ match type_errors with
       | [] => []
       | _ => [("Type/validation errors: " ++ join "; " type_errors)%string]
       end in
  ("Configuration validation failed:" ++ newline ++ join newline errors)%string.

(** [validate_config]: the config, or the message of the [ValueError]. *)
Definition validate_config (current_year : Z) (c : config) : config + string :=
  let '(missing, type_errors) := check_required required_fields c in
  let type_errors := type_errors ++ extra_errors current_year c in
  match missing, type_errors with
  | [], [] => inl c
  | _, _ => inr (validation_message missing type_errors)
  end.

(** ** The scheduled entry point ([update_dashboards] in src/app.py) *)

(** What a run does to the outside world: [Sync d] stands for
    [google_sheet_sync] on the config with draft id [d], whose first step runs
    the transformation engine on the database and then writes the sheet. *)
Inductive run_event := Sync (draft_id : string).

Definition draft_id_of (c : config) : string :=
  match lookup "draft_id" c with Some (VStr s) => s | _ => "" end.

(** How a run ends: a configuration error raised by [update_dashboards]
    itself (a [ValueError] of [validate_config] or the duplicate draft id
    check), or an exception raised inside [google_sheet_sync] (an unset or
    invalid credentials variable, a spreadsheet or database error). *)
Inductive run_error :=
| ConfigError (msg : string)
| SyncError (msg : string).

(** The loop over the config files in sorted order; [seen_draft_ids] maps a
    draft id to the file that used it. [google_sheet_sync n c] is the outcome
    of the [n]-th call of [google_sheet_sync] in the run (counted from 0) on
    the config [c]: [None] when it returns, [Some e] when it raises [e]. Every
    call before the [n]-th returned, so [n] is the number of draft ids seen.
    The result is the syncs started and how the run ended, if by an
    exception. *)
Fixpoint update_loop (current_year : Z) (google_sheet_sync : nat -> config -> option string)
    (seen_draft_ids : list (string * string))
    (config_files : list (string * config)) : list run_event * option run_error :=
  match config_files with
  | [] => ([], None)
  | (config_path, raw) :: rest =>
      match validate_config current_year raw with
      | inr msg => ([], Some (ConfigError msg))
      | inl config_dict =>
          let draft_id := draft_id_of config_dict in
          match find (fun kv => String.eqb (fst kv) draft_id) seen_draft_ids with
          | Some (_, first_path) =>
              ([], Some (ConfigError ("draft_id '" ++ draft_id ++ "' is used in both "
                                      ++ first_path ++ " and " ++ config_path)%string))
          | None =>
              match google_sheet_sync (List.length seen_draft_ids) config_dict with
              | Some e => ([Sync draft_id], Some (SyncError e))
              | None =>
                  let '(events, err) :=
                    update_loop current_year google_sheet_sync
                      ((draft_id, config_path) :: seen_draft_ids) rest in
                  (Sync draft_id :: events, err)
              end
          end
      end
  end.

(** The draft id of a sync event. *)
Definition sync_id (e : run_event) : string := match e with Sync d => d end.

Definition update_dashboards (current_year : Z)
    (google_sheet_sync : nat -> config -> option string)
    (config_files : list (string * config)) : list run_event * option run_error :=
  update_loop current_year google_sheet_sync [] config_files.

(** A well-formed config for the 2026 season, used in the examples below. *)
Definition sample_config (draft_id : string) : config :=
  [("year", VInt 2026); ("name", VStr "2026 Standings"); ("sheet_name", VStr "Sheet");
   ("draft_id", VStr draft_id); ("update_type", VStr "web");
   ("gspread_credentials_name", VStr "GSPREAD")].

(** ** Missing-movie diagnostic ([log_missing_movies] in src/src/utils/gsheet.py) *)

Module StringOrder <: Orders.TotalLeBool.
Definition t := string.
Definition leb := String.leb.
Lemma leb_total : forall a b, leb a b = true \/ leb b a = true.
Proof. exact String.leb_total. Qed.
End StringOrder.

(** Python's [sorted] on strings; on distinct strings every correct sort
    returns the same list. *)
Module StringSort := Mergesort.Sort StringOrder.

(** [set(l)], keeping one copy of each element. *)
Fixpoint dedup (l : list string) : list string :=
  match l with
  | [] => []
  | x :: r => if mem_name x r then dedup r else x :: dedup r
  end.

(** [set(drafted_movies) - set(released_movies)], then [sorted]. *)
Definition missing_movies (drafted released : list py_value) : list string :=
  let released_movies := map py_str released in
  let drafted_movies := map py_str drafted in
  StringSort.sort
    (filter (fun m => negb (mem_name m released_movies)) (dedup drafted_movies)).

(** The lines [log_missing_movies] logs, given the [movie] column of
    [cleaned.drafter] and the [Title] column of the released movies. *)
Definition log_missing_movies (drafted released : list py_value) : list string :=
  match missing_movies drafted released with
  | [] => ["All movies are on the scoreboard."]
  | ms =>
      ["The following movies are missing from the scoreboard and should be added to the manual_adds.csv file:";
       join ", " ms]
  end.

(** ** Loading a configuration file ([get_config_dict] in src/src/utils/config.py) *)

(** [d[k] = v] on a dict: the value of an existing key is replaced in place,
    a new key goes last. *)
Definition dict_set (k : string) (v : py_value) (c : config) : config :=
  if has_key k c
  then map (fun kv => if String.eqb (fst kv) k then (k, v) else kv) c
  else c ++ [(k, v)].

(** [get_config_dict]: [yaml_object] is what [yaml.safe_load] returns for the
    file, [None] for an empty file and otherwise a mapping; [path_value] is
    the [Path] object stored under 'path', [config_path] its [str]. *)
Definition get_config_dict (current_year : Z) (config_path : string)
    (path_value : py_value) (yaml_object : option config) : config + string :=
  match yaml_object with
  | None => inr ("Configuration file " ++ config_path ++ " is empty or invalid")%string
  | Some yaml_object => validate_config current_year (dict_set "path" path_value yaml_object)
  end.

(** The keys [validate_config] reads. *)
Definition checked_keys : list string :=
  map fst required_fields
  ++ ["bucket"; "s3_access_key_id_var_name"; "s3_secret_access_key_var_name"].

(** ** The older validator ([src/src/utils/config_types.py]) *)

Module ConfigTypes.

Definition required_fields : list (string * py_type) :=
  [("year", TInt); ("name", TStr); ("sheet_name", TStr); ("database_file", TStr)].

(** [s.endswith(suffix)]. *)
Definition ends_with (suffix s : string) : bool :=
  let n := String.length s in
  let m := String.length suffix in
  (m <=? n)%nat && String.eqb (substring (n - m) m s) suffix.

Definition extra_errors (c : config) : list string :=
  (match lookup "database_file" c with
   | Some (VStr s) =>
       if ends_with ".duckdb" s then [] else ["database_file: must end with .duckdb"]
   | _ => []
   end)
  ++ (match lookup "update_type" c with
      | None | Some VNone => []
      | Some (VStr "s3") | Some (VStr "web") => []
      | Some _ => ["update_type: must be 's3' or 'web'"]
      end)
  ++ (match lookup "update_type" c with
      | Some (VStr "s3") =>
          if has_key "bucket" c then [] else ["bucket: required when update_type is 's3'"]
      | _ => []
      end).

(** [validate_config] of config_types.py: the config, or the message of the
    [ValueError]. *)
Definition validate_config (c : config) : config + string :=
  let '(missing, type_errors) := check_required required_fields c in
  let type_errors := type_errors ++ extra_errors c in
  match missing, type_errors with
  | [], [] => inl c
  | _, _ => inr (validation_message missing type_errors)
  end.

End ConfigTypes.

(** ** The legacy dashboard path ([GoogleSheetDashboard] in src/src/utils/gsheet.py) *)

(** [self.dashboard_elements] after [GoogleSheetDashboard.__init__], as the
    tables with their anchors and row counts (the format dicts aside). As in
    [generate], the [None] branch of [best_picks_row_num] is unreachable. *)
Definition dashboard_elements (scoreboard_length released_movies_length
    worst_picks_length best_picks_length : Z) : list asset :=
  let layout := Gsheet.calculate_picks_table_layout scoreboard_length
      released_movies_length worst_picks_length best_picks_length in
  let picks_row_num := worst_picks_row_num layout in
  let add_picks_table :=
    (0 <? worst_picks_height layout) && (1 <? worst_picks_length) in
  [mk_asset Scoreboard col_B 4 6 scoreboard_length;
   mk_asset ReleasedMovies col_I 4 16 released_movies_length]
  ++ (if add_both_picks_tables layout then
        [mk_asset WorstPicks col_B picks_row_num 6
           (head_len (worst_picks_height layout) worst_picks_length)]
        ++ match best_picks_row_num layout with
           | Some row =>
               [mk_asset BestPicks col_B row 6
                  (head_len (best_picks_height layout) best_picks_length)]
           | None => []
           end
      else if add_picks_table then
        [mk_asset WorstPicks col_B picks_row_num 6
           (head_len (worst_picks_height layout) worst_picks_length)]
      else []).

Inductive setup_error :=
| CredentialsMissing (msg : string)
| JSONDecodeError.

(** [GoogleSheetDashboard.setup_worksheet]: [gspread_credentials] is
    [os.getenv(gspread_credentials_key)], and [json_loads_ok] tells whether
    [json.loads] accepts it once its newlines are escaped. *)
Definition setup_worksheet (gspread_credentials_key : string)
    (gspread_credentials : option string) (json_loads_ok : string -> bool)
    (released_movies_length : Z) (ss : spreadsheet) : spreadsheet + setup_error :=
  match gspread_credentials with
  | None =>
      inr (CredentialsMissing
             (gspread_credentials_key ++ " is not set or is invalid in the .env file."))
  | Some s =>
      if json_loads_ok s then
        let sheet_height := released_movies_length + 5 in
        inl (create_worksheet "Dashboard" sheet_height 25
               (delete_worksheet "Dashboard" ss))
      else inr JSONDecodeError
  end.

(** ** Section titles *)

(** The two title formats: [TITLE_FORMAT] (centred, 20 point bold) and
    [PICKS_TITLE_FORMAT] (centred, bold); the legacy [update_titles] spells
    out the same dicts. *)
Inductive title_format := TITLE_FORMAT | PICKS_TITLE_FORMAT.

(** A title write: its text, its cell, the last column of the merged range
    on the same row, and its format. *)
Record title := mk_title {
  title_text : string;
  title_col : Z;
  title_row : Z;
  merge_end_col : Z;
  title_fmt : title_format
}.

(** The title hook of an asset in [DashboardWorksheet.generate]:
    [_apply_scoreboard_title], [_apply_released_movies_title], and
    [_apply_worst_picks_title] / [_apply_best_picks_title], which write one
    row above the anchor and merge five more columns. *)
Definition title_hook (dashboard_name : string) (a : asset) : title :=
  match kind a with
  | Scoreboard => mk_title dashboard_name col_B 2 col_F TITLE_FORMAT
  | ReleasedMovies => mk_title "Released Movies" col_I 2 col_X TITLE_FORMAT
  | WorstPicks =>
      mk_title "Worst Picks" (anchor_col a) (anchor_row a - 1) (anchor_col a + 5)
        PICKS_TITLE_FORMAT
  | BestPicks =>
      mk_title "Best Picks" (anchor_col a) (anchor_row a - 1) (anchor_col a + 5)
        PICKS_TITLE_FORMAT
  end.

(** The legacy [update_titles] (src/src/utils/gsheet.py) after
    [GoogleSheetDashboard.__init__]: [None] is the [TypeError] of
    [best_picks_row_num - 1] when [best_picks_row_num] is [None]. *)
Definition update_titles (dashboard_name : string) (scoreboard_length
    released_movies_length worst_picks_length best_picks_length : Z)
    : option (list title) :=
  let layout := Gsheet.calculate_picks_table_layout scoreboard_length
      released_movies_length worst_picks_length best_picks_length in
  let picks_row_num := worst_picks_row_num layout in
  let add_picks_table :=
    (0 <? worst_picks_height layout) && (1 <? worst_picks_length) in
  option_map
    (fun picks_titles =>
       [mk_title dashboard_name col_B 2 col_F TITLE_FORMAT;
        mk_title "Released Movies" col_I 2 col_X TITLE_FORMAT] ++ picks_titles)
    (if add_picks_table then
       if add_both_picks_tables layout then
         match best_picks_row_num layout with
         | Some best_row =>
             Some [mk_title "Worst Picks" col_B (picks_row_num - 1) col_G PICKS_TITLE_FORMAT;
                   mk_title "Best Picks" col_B (best_row - 1) col_G PICKS_TITLE_FORMAT]
         | None => None
         end
       else Some [mk_title "Worst Picks" col_B (picks_row_num - 1) col_G PICKS_TITLE_FORMAT]
     else Some []).

(** ** Zero clearing ([DashboardWorksheet._clear_zero_values]) *)

(** A dataframe column by column: names with their values, every column of
    the same length. *)
Definition frame := list (string * list py_value).

Definition frame_len (df : frame) : nat :=
  match df with [] => O | (_, vs) :: _ => List.length vs end.

(** [df.empty]: no column or no row. *)
Definition frame_empty (df : frame) : bool := Nat.eqb (frame_len df) 0.

(** [df[name]] when [name in df.columns]. *)
Definition frame_column (name : string) (df : frame) : option (list py_value) :=
  match find (fun kv => String.eqb (fst kv) name) df with
  | Some kv => Some (snd kv)
  | None => None
  end.

(** [value == 0 or value == 0.0]. A number with an integral value is a
    [VInt]; in Python [False == 0] holds. *)
Definition py_eq_zero (v : py_value) : bool :=
  match v with
  | VInt z => z =? 0
  | VBool b => negb b
  | _ => false
  end.

Definition col_V : Z := 22.

(** The cells, as (column, row), that the loop writes [''] to, in order:
    [CellLocation('V5', offset_rows=df_idx)]. *)
Fixpoint clear_zero_cells (df_idx : Z) (values : list py_value) : list (Z * Z) :=
  match values with
  | [] => []
  | value :: rest =>
      (if py_eq_zero value then [(col_V, 5 + df_idx)] else [])
      ++ clear_zero_cells (df_idx + 1) rest
  end.

Definition clear_zero_values (released_movies_df : option frame) : list (Z * Z) :=
  match released_movies_df with
  | None => []
  | Some df =>
      if frame_empty df then []
      else match frame_column "Better Pick Scored Revenue" df with
           | None => []
           | Some col => clear_zero_cells 0 col
           end
  end.

(** * Properties *)

(** ** Layout calculator *)

Ltac destruct_layout_tests :=
  repeat match goal with
  | |- context [?a <=? ?b] => let E := fresh "E" in
      destruct (a <=? b) eqn:E; [apply Z.leb_le in E | apply Z.leb_gt in E]
  | |- context [?a <? ?b] => let E := fresh "E" in
      destruct (a <? b) eqn:E; [apply Z.ltb_lt in E | apply Z.ltb_ge in E]
  end; simpl.

Ltac split_goal :=
  repeat match goal with
  | |- _ /\ _ => split
  | |- _ <-> _ => split
  | |- _ -> _ => intro
  | |- let _ := _ in _ => intro
  end.

(** C1: [add_both_picks_tables] holds exactly when the available height is
    at least 6 and both picks tables have more than one row; then the worst
    table gets [min (usable_height // 2) worst_len] rows, the best table
    starts [1 + worst_height + 2] rows below the worst table and gets
    [min (usable_height - worst_height) best_len] rows, where
    [usable_height = available_height - 4]. *)
Theorem layout_both_tables (sb rl wl bl : Z) :
  let L := Gsheet.calculate_picks_table_layout sb rl wl bl in
  let avail := rl - sb - 3 in
  available_height L = avail /\
  (add_both_picks_tables L = true <-> 6 <= avail /\ 1 < wl /\ 1 < bl) /\
  (add_both_picks_tables L = true ->
     let usable_height := avail - 4 in
     worst_picks_height L = Z.min (usable_height / 2) wl /\
     best_picks_row_num L = Some (worst_picks_row_num L + 1 + worst_picks_height L + 2) /\
     best_picks_height L = Z.min (usable_height - worst_picks_height L) bl) /\
  Gsheet.calculate_picks_table_layout 2 16 10 10 = mk_layout 11 true 9 3 (Some 15) 4.
Proof.
  cbv zeta. unfold Gsheet.calculate_picks_table_layout. cbv zeta.
  destruct_layout_tests; split_goal;
    try discriminate; try reflexivity; try lia; f_equal; f_equal; lia.
Qed.

(** C2: for non-negative table lengths, each picks table gets a
    non-negative number of rows, at most its number of data rows. *)
Theorem layout_heights_bounded (sb rl wl bl : Z)
    (Hsb : 0 <= sb) (Hrl : 0 <= rl) (Hwl : 0 <= wl) (Hbl : 0 <= bl) :
  let L := Gsheet.calculate_picks_table_layout sb rl wl bl in
  0 <= worst_picks_height L <= wl /\ 0 <= best_picks_height L <= bl.
Proof.
  cbv zeta. unfold Gsheet.calculate_picks_table_layout. cbv zeta.
  destruct_layout_tests; Z.div_mod_to_equations; lia.
Qed.

(** C3: when the both-tables test fails, [best_picks_row_num] is absent,
    [best_picks_height] is 0, and the worst table gets
    [min available_height worst_len] rows if [available_height > 0] and
    [worst_len > 1], and 0 rows otherwise (in particular for a negative
    available height). *)
Theorem layout_single_table_fallback (sb rl wl bl : Z)
    (Hfail : ~ (6 <= rl - sb - 3 /\ 1 < wl /\ 1 < bl)) :
  let L := Gsheet.calculate_picks_table_layout sb rl wl bl in
  let avail := rl - sb - 3 in
  add_both_picks_tables L = false /\
  best_picks_row_num L = None /\
  best_picks_height L = 0 /\
  (0 < avail /\ 1 < wl -> worst_picks_height L = Z.min avail wl) /\
  (~ (0 < avail /\ 1 < wl) -> worst_picks_height L = 0) /\
  Gsheet.calculate_picks_table_layout 2 8 10 10 = mk_layout 3 false 9 3 None 0.
Proof.
  cbv zeta. unfold Gsheet.calculate_picks_table_layout. cbv zeta.
  destruct_layout_tests; split_goal; try reflexivity; try lia.
Qed.

(** C4: the worst-picks table is always anchored at row
    [5 + scoreboard_length + 2]. *)
Theorem layout_worst_row (sb rl wl bl : Z) :
  worst_picks_row_num (Gsheet.calculate_picks_table_layout sb rl wl bl) = 5 + sb + 2.
Proof.
  unfold Gsheet.calculate_picks_table_layout. cbv zeta.
  destruct_layout_tests; reflexivity.
Qed.

(** The two layout functions of the source agree on every input. *)
Lemma layout_impls_agree (sb rl wl bl : Z) :
  Gsheet.calculate_picks_table_layout sb rl wl bl
  = Dashboard.calculate_picks_table_layout sb rl wl bl.
Proof. reflexivity. Qed.

(** C10 (counterexample): there is no input on which the layout function
    of gsheet.py and the one of sheets/tabs/dashboard.py differ. *)
Lemma layout_impls_not_divergent :
  ~ exists sb rl wl bl,
      Gsheet.calculate_picks_table_layout sb rl wl bl
      <> Dashboard.calculate_picks_table_layout sb rl wl bl.
Proof.
  intros (sb & rl & wl & bl & H). apply H, layout_impls_agree.
Qed.

(** C10 (amended): [calculate_picks_table_layout] in gsheet.py and in
    sheets/tabs/dashboard.py return the same layout for every input; both
    use the spacing constant 3 and the same both-tables test. *)
Theorem layout_impls_identical (sb rl wl bl : Z) :
  Gsheet.calculate_picks_table_layout sb rl wl bl
  = Dashboard.calculate_picks_table_layout sb rl wl bl /\
  available_height (Dashboard.calculate_picks_table_layout sb rl wl bl) = rl - sb - 3.
Proof.
  split; [apply layout_impls_agree|].
  unfold Dashboard.calculate_picks_table_layout. cbv zeta.
  destruct_layout_tests; reflexivity.
Qed.

(** ** Table asset model *)

Lemma range_disjoint_sep (x y : cell_range) :
  c2 x < c1 y \/ c2 y < c1 x \/ r2 x < r1 y \/ r2 y < r1 x
  \/ r2 x < r1 x \/ r2 y < r1 y ->
  range_disjoint x y.
Proof.
  intros H c r [Hc1 Hr1] [Hc2 Hr2]. lia.
Qed.

Ltac solve_disjoint :=
  cbv [map footprint pairwise_disjoint footprints_disjoint
       kind anchor_col anchor_row asset_cols asset_rows
       col_B col_F col_G col_I col_X];
  repeat constructor; apply range_disjoint_sep; cbn [c1 c2 r1 r2]; lia.

Lemma assets_disjoint_two (sb rl : Z) (Hsb : 0 <= sb) (Hrl : 0 <= rl) :
  pairwise_disjoint (map footprint
    [mk_asset Scoreboard col_B 4 6 sb; mk_asset ReleasedMovies col_I 4 16 rl]).
Proof. solve_disjoint. Qed.

Lemma assets_disjoint_three (sb rl wh : Z) (Hsb : 0 <= sb) (Hrl : 0 <= rl)
    (Hwh : 0 <= wh) :
  pairwise_disjoint (map footprint
    [mk_asset Scoreboard col_B 4 6 sb; mk_asset ReleasedMovies col_I 4 16 rl;
     mk_asset WorstPicks col_B (5 + sb + 2) 6 wh]).
Proof. solve_disjoint. Qed.

Lemma assets_disjoint_four (sb rl wh bh : Z) (Hsb : 0 <= sb) (Hrl : 0 <= rl)
    (Hwh : 0 <= wh) (Hbh : 0 <= bh) :
  pairwise_disjoint (map footprint
    [mk_asset Scoreboard col_B 4 6 sb; mk_asset ReleasedMovies col_I 4 16 rl;
     mk_asset WorstPicks col_B (5 + sb + 2) 6 wh;
     mk_asset BestPicks col_B (5 + sb + 2 + 1 + wh + 2) 6 bh]).
Proof. solve_disjoint. Qed.

Lemma head_len_id (n len : Z) : 0 <= n <= len -> head_len n len = n.
Proof. unfold head_len. destruct_layout_tests; lia. Qed.


(** The two shapes a layout can take, for non-negative picks lengths. *)
Lemma layout_cases (sb rl wl bl : Z) (Hwl : 0 <= wl) (Hbl : 0 <= bl) :
  let L := Dashboard.calculate_picks_table_layout sb rl wl bl in
  (add_both_picks_tables L = true /\ worst_picks_row_num L = 5 + sb + 2 /\
   1 <= worst_picks_height L <= wl /\
   best_picks_row_num L = Some (5 + sb + 2 + 1 + worst_picks_height L + 2) /\
   0 <= best_picks_height L <= bl)
  \/
  (add_both_picks_tables L = false /\ worst_picks_row_num L = 5 + sb + 2 /\
   0 <= worst_picks_height L <= wl /\ best_picks_row_num L = None).
Proof.
  cbv zeta. unfold Dashboard.calculate_picks_table_layout. cbv zeta.
  destruct_layout_tests; [left | right..]; split_goal; try reflexivity;
    Z.div_mod_to_equations; lia.
Qed.

(** C5: for non-negative table lengths, the assets of [generate] are the
    scoreboard at B4 and the released movies at I4, followed by picks tables
    anchored in column B at the layout's rows; the cells written or
    formatted for different assets (header and data rows, titles and their
    merged ranges, formatting ranges, the G2 message) never overlap. *)
Theorem generate_disjoint (sb rl wl bl : Z)
    (Hsb : 0 <= sb) (Hrl : 0 <= rl) (Hwl : 0 <= wl) (Hbl : 0 <= bl) :
  let L := Dashboard.calculate_picks_table_layout sb rl wl bl in
  (exists rest,
     generate sb rl wl bl
     = mk_asset Scoreboard col_B 4 6 sb :: mk_asset ReleasedMovies col_I 4 16 rl :: rest
     /\ Forall (fun a => anchor_col a = col_B /\
                  (kind a = WorstPicks /\ anchor_row a = worst_picks_row_num L
                   \/ kind a = BestPicks /\ Some (anchor_row a) = best_picks_row_num L))
               rest) /\
  pairwise_disjoint (map footprint (generate sb rl wl bl)).
Proof.
  pose proof (layout_cases sb rl wl bl Hwl Hbl) as HC. cbv zeta in *.
  unfold generate. revert HC.
  generalize (Dashboard.calculate_picks_table_layout sb rl wl bl) as L.
  intros [av ab wr wh br bh] HC; cbn in *.
  destruct HC as [(-> & -> & Hwh & -> & Hbh) | (-> & -> & Hwh & ->)];
    destruct ((0 <? wh) && (1 <? wl)) eqn:Ep;
    cbn -[footprint pairwise_disjoint map head_len];
    (split;
     [eexists; split; [reflexivity|];
      repeat first [apply Forall_nil | apply Forall_cons]; cbn; split; auto
     |]).
  - rewrite (head_len_id wh wl), (head_len_id bh bl) by lia.
    apply assets_disjoint_four; lia.
  - apply assets_disjoint_two; lia.
  - rewrite (head_len_id wh wl) by lia. apply assets_disjoint_three; lia.
  - apply assets_disjoint_two; lia.
Qed.

(** ** Freshness message *)

Lemma string_append_assoc (a b c : string) :
  ((a ++ b) ++ c)%string = (a ++ (b ++ c))%string.
Proof. induction a as [|x a IH]; simpl; [reflexivity | now rewrite IH]. Qed.

Lemma done_updating_iff (rows : list theaters_cell) (year current_year : Z) :
  dashboard_done_updating (Some rows) year current_year = true <->
  rows <> [] /\ Forall (fun v => v = Some "No") rows /\ year < current_year.
Proof.
  unfold dashboard_done_updating.
  rewrite !andb_true_iff, forallb_forall, Z.ltb_lt, Z.ltb_lt, Forall_forall.
  assert (Hno : forall v, eq_No v = true <-> v = Some "No").
  { intros [s|]; simpl; [rewrite String.eqb_eq; split; congruence
                        | split; discriminate]. }
  split.
  - intros [[Hall Hlen] Hy]. repeat split; auto.
    + intros ->. simpl in Hlen. lia.
    + intros v Hv. apply Hno, Hall, Hv.
  - intros (Hne & Hall & Hy). repeat split; auto.
    + intros v Hv. apply Hno, Hall, Hv.
    + destruct rows; [congruence | simpl; lia].
Qed.

(** C6: the G2 message has the "done updating and can be removed" part
    exactly when the released-movies table has a row, every "Still In
    Theaters" value is "No", and the configured year is before the current
    UTC year; otherwise it is only the last-updated and data-updated-through
    parts. *)
Theorem timestamp_message_done (rows : list theaters_cell) (year current_year : Z)
    (now_str data_str : string) :
  let msg := timestamp_message (Some rows) year current_year now_str data_str in
  let done_cond :=
    rows <> [] /\ Forall (fun v => v = Some "No") rows /\ year < current_year in
  (done_cond ->
     msg = (last_updated_text now_str ++ done_text ++ data_through_text data_str)%string) /\
  (~ done_cond ->
     msg = (last_updated_text now_str ++ data_through_text data_str)%string).
Proof.
  cbv zeta. unfold timestamp_message. split; intros H.
  - apply done_updating_iff in H. rewrite H. apply string_append_assoc.
  - destruct (dashboard_done_updating (Some rows) year current_year) eqn:E.
    + apply done_updating_iff in E. contradiction.
    + reflexivity.
Qed.

(** ** Worksheet provisioning *)

Lemma names_create (n : string) (r c : Z) (ss : spreadsheet) :
  get_worksheet_names (create_worksheet n r c ss) = get_worksheet_names ss ++ [n].
Proof. unfold get_worksheet_names, create_worksheet. now rewrite map_app. Qed.

Lemma names_resize (n : string) (r c : Z) (ss : spreadsheet) :
  get_worksheet_names (resize_sheet n r c ss) = get_worksheet_names ss.
Proof.
  unfold get_worksheet_names, resize_sheet. rewrite map_map.
  apply map_ext. intros w. destruct (String.eqb_spec (ws_name w) n); auto.
Qed.

Lemma mem_name_app (x : string) (l1 l2 : list string) :
  mem_name x (l1 ++ l2) = mem_name x l1 || mem_name x l2.
Proof. unfold mem_name. apply existsb_app. Qed.

Lemma mem_name_single (x n : string) : mem_name x [n] = String.eqb x n.
Proof. unfold mem_name. simpl. apply orb_false_r. Qed.

Lemma mem_name_delete (x n : string) (ss : spreadsheet) :
  x <> n ->
  mem_name x (get_worksheet_names (delete_worksheet n ss))
  = mem_name x (get_worksheet_names ss).
Proof.
  intros Hx. induction ss as [|w ss IH]; [reflexivity|].
  unfold delete_worksheet, get_worksheet_names, mem_name in *. cbn [filter].
  destruct (String.eqb_spec (ws_name w) n) as [Hw|Hw]; cbn [negb filter map existsb].
  - rewrite IH. destruct (String.eqb_spec x (ws_name w)); [congruence | reflexivity].
  - now rewrite IH.
Qed.

Lemma dashboards_app (l1 l2 : spreadsheet) :
  dashboards (l1 ++ l2) = dashboards l1 ++ dashboards l2.
Proof. apply filter_app. Qed.

Lemma dashboards_absent (ss : spreadsheet) :
  mem_name "Dashboard" (get_worksheet_names ss) = false -> dashboards ss = [].
Proof.
  induction ss as [|w ss IH]; [reflexivity|].
  unfold mem_name, dashboards, get_worksheet_names in *. cbn [map existsb filter].
  intros H. apply orb_false_iff in H as [H1 H2].
  rewrite String.eqb_sym, H1. now apply IH.
Qed.

Lemma dashboards_delete (ss : spreadsheet) :
  dashboards (delete_worksheet "Dashboard" ss) = [].
Proof.
  induction ss as [|w ss IH]; [reflexivity|].
  unfold delete_worksheet, dashboards in *. cbn [filter].
  destruct (String.eqb (ws_name w) "Dashboard") eqn:E; cbn [negb filter];
    [exact IH|].
  rewrite E. exact IH.
Qed.

Lemma handle_missing_dashboards (ss : spreadsheet) :
  dashboards (handle_missing_worksheets ss) = [mk_ws "Dashboard" 500 25].
Proof.
  unfold handle_missing_worksheets. cbv zeta.
  match goal with |- dashboards (create_worksheet _ _ _ ?mid) = _ =>
    set (m := mid) end.
  assert (Hmid : dashboards m = []).
  { unfold m. destruct (mem_name "Dashboard" (get_worksheet_names ss)) eqn:Ed;
      [apply dashboards_delete|].
    apply dashboards_absent.
    destruct (mem_name "Manual Adds" _), (mem_name "Multipliers and Exclusions" _);
      rewrite ?names_create, ?mem_name_app, ?mem_name_single, ?Ed; reflexivity. }
  unfold create_worksheet. rewrite dashboards_app, Hmid. reflexivity.
Qed.

(** Which of [Manual Adds], [Multipliers and Exclusions], [Draft] and
    [Dashboard] the pre-run hook leaves in the spreadsheet. *)
Lemma handle_missing_names (ss : spreadsheet) :
  let ns := get_worksheet_names (handle_missing_worksheets ss) in
  mem_name "Manual Adds" ns = true /\
  mem_name "Multipliers and Exclusions" ns = true /\
  mem_name "Dashboard" ns = true /\
  mem_name "Draft" ns = mem_name "Draft" (get_worksheet_names ss).
Proof.
  cbv zeta. unfold handle_missing_worksheets. cbv zeta.
  rewrite !names_create, !mem_name_app, !mem_name_single.
  destruct (mem_name "Manual Adds" (get_worksheet_names ss)) eqn:Em,
           (mem_name "Multipliers and Exclusions" (get_worksheet_names ss)) eqn:Ex,
           (mem_name "Dashboard" (get_worksheet_names ss)) eqn:Ed;
    split_goal; try (rewrite mem_name_delete by (intro Hc; inversion Hc));
    rewrite ?names_create, ?mem_name_app, ?mem_name_single, ?Em, ?Ex;
    cbn; rewrite ?orb_true_r, ?orb_false_r; auto.
Qed.

Lemma find_name_map (n : string) (ss : spreadsheet) :
  map ws_name (match find (fun w => String.eqb (ws_name w) n) ss with
               | Some w => [w]
               | None => []
               end)
  = if mem_name n (get_worksheet_names ss) then [n] else [].
Proof.
  induction ss as [|w ss IH]; [reflexivity|].
  unfold get_worksheet_names, mem_name in *. cbn [find map existsb].
  rewrite (String.eqb_sym n (ws_name w)).
  destruct (String.eqb_spec (ws_name w) n) as [Hw|Hw]; cbn [orb].
  - cbn [map]. now rewrite Hw.
  - exact IH.
Qed.

Lemma names_filter_order (order : list string) (ss : spreadsheet) :
  map ws_name (filter (fun w => negb (mem_name (ws_name w) order)) ss)
  = filter (fun n => negb (mem_name n order)) (get_worksheet_names ss).
Proof.
  induction ss as [|w ss IH]; [reflexivity|].
  unfold get_worksheet_names in *. cbn [filter map].
  destruct (negb (mem_name (ws_name w) order)); cbn [map]; now rewrite IH.
Qed.

Lemma names_reorder (order : list string) (ss : spreadsheet) :
  get_worksheet_names (reorder_worksheets order ss)
  = filter (fun n => mem_name n (get_worksheet_names ss)) order
    ++ filter (fun n => negb (mem_name n order)) (get_worksheet_names ss).
Proof.
  unfold reorder_worksheets. unfold get_worksheet_names at 1.
  rewrite map_app, names_filter_order. f_equal.
  induction order as [|n order IH]; [reflexivity|].
  cbn [flat_map filter]. rewrite map_app, find_name_map, IH.
  destruct (mem_name n (get_worksheet_names ss)); reflexivity.
Qed.

Lemma dashboards_resize (h : Z) (ss : spreadsheet) :
  dashboards (resize_sheet "Dashboard" h 25 ss)
  = map (fun _ => mk_ws "Dashboard" h 25) (dashboards ss).
Proof.
  induction ss as [|w ss IH]; [reflexivity|].
  unfold dashboards, resize_sheet in *. cbn [map filter].
  destruct (String.eqb (ws_name w) "Dashboard") eqn:E; cbn [ws_name filter map].
  - rewrite String.eqb_refl. now rewrite IH.
  - rewrite E. exact IH.
Qed.

Lemma dashboards_find_other (n : string) (ss : spreadsheet) :
  n <> "Dashboard" ->
  dashboards (match find (fun w => String.eqb (ws_name w) n) ss with
              | Some w => [w]
              | None => []
              end) = [].
Proof.
  intros Hn. destruct (find _ ss) as [w|] eqn:F; [|reflexivity].
  apply find_some in F as [_ F]. apply String.eqb_eq in F.
  unfold dashboards. cbn [filter]. subst n.
  destruct (String.eqb_spec (ws_name w) "Dashboard"); [contradiction | reflexivity].
Qed.

Lemma dashboards_not_in_order (ss : spreadsheet) :
  dashboards (filter (fun w => negb (mem_name (ws_name w) canonical_order)) ss) = [].
Proof.
  induction ss as [|w ss IH]; [reflexivity|].
  unfold dashboards in *. cbn [filter].
  destruct (String.eqb_spec (ws_name w) "Dashboard") as [E|E].
  - rewrite E. exact IH.
  - destruct (negb _); cbn [filter]; [|exact IH].
    destruct (String.eqb_spec (ws_name w) "Dashboard"); [contradiction | exact IH].
Qed.

Lemma dashboards_reorder_single (ss : spreadsheet) (d : worksheet) :
  dashboards ss = [d] -> dashboards (reorder_worksheets canonical_order ss) = [d].
Proof.
  intros Hd. unfold reorder_worksheets. unfold canonical_order at 1.
  cbn [flat_map]. rewrite !dashboards_app, dashboards_not_in_order.
  rewrite (dashboards_find_other "Draft"), (dashboards_find_other "Manual Adds"),
          (dashboards_find_other "Multipliers and Exclusions")
    by (intro Hc; inversion Hc).
  assert (Hin : In d (dashboards ss)) by (rewrite Hd; left; reflexivity).
  unfold dashboards in Hin. apply filter_In in Hin as [Hin Hname].
  destruct (find _ ss) as [w|] eqn:F.
  - apply find_some in F as [Hw Fw].
    assert (Hw' : In w (dashboards ss)) by (apply filter_In; auto).
    rewrite Hd in Hw'. destruct Hw' as [<-|[]].
    unfold dashboards. cbn [filter]. rewrite Hname. reflexivity.
  - eapply find_none in F; [|exact Hin]. congruence.
Qed.

Lemma mem_name_find (n : string) (ss : spreadsheet) :
  mem_name n (get_worksheet_names ss)
  = match find (fun w => String.eqb (ws_name w) n) ss with Some _ => true | None => false end.
Proof.
  induction ss as [|w ss IH]; [reflexivity|].
  unfold mem_name, get_worksheet_names in *. cbn [map existsb find].
  rewrite String.eqb_sym. destruct (String.eqb (ws_name w) n); [reflexivity|exact IH].
Qed.

Lemma delete_absent (n : string) (ss : spreadsheet) :
  find (fun w => String.eqb (ws_name w) n) ss = None -> delete_worksheet n ss = ss.
Proof.
  induction ss as [|w ss IH]; [reflexivity|].
  unfold delete_worksheet in *. cbn [find filter].
  destruct (String.eqb (ws_name w) n); [discriminate|]. cbn [negb].
  intros H. f_equal. exact (IH H).
Qed.

(** What the pre-run hook leaves, sheet by sheet. *)
Lemma handle_missing_shape (ss : spreadsheet) :
  handle_missing_worksheets ss
  = delete_worksheet "Dashboard" ss
    ++ (if mem_name "Manual Adds" (get_worksheet_names ss) then []
        else [mk_ws "Manual Adds" 100 5])
    ++ (if mem_name "Multipliers and Exclusions" (get_worksheet_names ss) then []
        else [mk_ws "Multipliers and Exclusions" 100 3])
    ++ [mk_ws "Dashboard" 500 25].
Proof.
  unfold handle_missing_worksheets. cbv zeta.
  destruct (mem_name "Dashboard" (get_worksheet_names ss)) eqn:Ed.
  - destruct (mem_name "Manual Adds" (get_worksheet_names ss)),
      (mem_name "Multipliers and Exclusions" (get_worksheet_names ss));
      unfold create_worksheet, delete_worksheet; rewrite ?filter_app; cbn [app];
      rewrite <- ?app_assoc; reflexivity.
  - rewrite mem_name_find in Ed.
    destruct (find (fun w => String.eqb (ws_name w) "Dashboard") ss) eqn:FD;
      [discriminate|].
    rewrite (delete_absent "Dashboard" ss FD).
    destruct (mem_name "Manual Adds" (get_worksheet_names ss)),
      (mem_name "Multipliers and Exclusions" (get_worksheet_names ss));
      unfold create_worksheet; rewrite <- ?app_assoc; reflexivity.
Qed.

(** C7 (counterexample): with 10 released movies, the Dashboard worksheet
    the pre-run hook creates at the start of the cycle has 500 rows, not
    [10 + 5]. *)
Lemma provisioning_initial_size_counterexample :
  dashboards (handle_missing_worksheets []) <> [mk_ws "Dashboard" (10 + 5) 25].
Proof.
  rewrite handle_missing_dashboards. intro H. inversion H.
Qed.

(** C7 (amended): the pre-run hook keeps every worksheet other than
    Dashboard, unchanged and in order, appends "Manual Adds" (100 rows by 5
    columns) and "Multipliers and Exclusions" (100 by 3) only when absent,
    and ends with a freshly created Dashboard of 500 rows by 25 columns, the
    only Dashboard worksheet; so both named sheets are then present. After
    the writes, the post-run
    hooks resize it to [released_movies_length + 5] rows and 25 columns and
    put Dashboard, Draft (when present), Manual Adds and Multipliers and
    Exclusions first, in that order, before every other worksheet. *)
Theorem provisioning_cycle (ss : spreadsheet) (rl : Z) :
  let pre := handle_missing_worksheets ss in
  let post := run_cycle rl ss in
  (pre = delete_worksheet "Dashboard" ss
         ++ (if mem_name "Manual Adds" (get_worksheet_names ss) then []
             else [mk_ws "Manual Adds" 100 5])
         ++ (if mem_name "Multipliers and Exclusions" (get_worksheet_names ss) then []
             else [mk_ws "Multipliers and Exclusions" 100 3])
         ++ [mk_ws "Dashboard" 500 25] /\
   mem_name "Manual Adds" (get_worksheet_names pre) = true /\
   mem_name "Multipliers and Exclusions" (get_worksheet_names pre) = true /\
   dashboards pre = [mk_ws "Dashboard" 500 25]) /\
  dashboards post = [mk_ws "Dashboard" (rl + 5) 25] /\
  exists rest,
    get_worksheet_names post
    = "Dashboard" :: (if mem_name "Draft" (get_worksheet_names ss) then ["Draft"] else [])
      ++ ["Manual Adds"; "Multipliers and Exclusions"] ++ rest /\
    Forall (fun n => mem_name n canonical_order = false) rest.
Proof.
  cbv zeta.
  pose proof (handle_missing_names ss) as (HMA & HME & HD & HDr).
  pose proof (handle_missing_dashboards ss) as Hd.
  unfold run_cycle, adjust_worksheet_order, resize_dashboard. cbv zeta.
  split; [split; [apply handle_missing_shape|auto]|]. split.
  - erewrite dashboards_reorder_single; [reflexivity|].
    rewrite dashboards_resize, Hd. reflexivity.
  - rewrite names_reorder, names_resize.
    set (ns := get_worksheet_names (handle_missing_worksheets ss)) in *.
    exists (filter (fun n => negb (mem_name n canonical_order)) ns). split.
    + unfold canonical_order at 1. cbn [filter].
      rewrite HD, HDr, HMA, HME.
      destruct (mem_name "Draft" (get_worksheet_names ss)); reflexivity.
    + apply Forall_forall. intros n Hn. apply filter_In in Hn as [_ Hn].
      now apply negb_true_iff.
Qed.

(** ** Configuration validation and the entry loop *)



Lemma validate_config_inl (current_year : Z) (c c' : config) :
  validate_config current_year c = inl c' -> c' = c.
Proof.
  unfold validate_config. destruct (check_required required_fields c) as [m e].
  destruct m, (e ++ extra_errors current_year c); congruence.
Qed.

Lemma find_key_none {A : Type} (k : string) (l : list (string * A)) :
  find (fun kv => String.eqb (fst kv) k) l = None <-> ~ In k (map fst l).
Proof.
  induction l as [|[a b] l IH]; cbn [find map fst In]; [tauto|].
  destruct (String.eqb_spec a k) as [->|Ha]; rewrite ?IH; split.
  - discriminate.
  - intros H. exfalso. apply H. left. reflexivity.
  - intros H [E|E]; [congruence|tauto].
  - intros H E. apply H. right. exact E.
Qed.


Lemma update_loop_ok (current_year : Z) (google_sheet_sync : nat -> config -> option string)
    (config_files : list (string * config)) :
  forall seen,
  snd (update_loop current_year google_sheet_sync seen config_files) = None <->
  Forall (fun pc => validate_config current_year (snd pc) = inl (snd pc)) config_files /\
  NoDup (map (fun pc => draft_id_of (snd pc)) config_files) /\
  Forall (fun pc => ~ In (draft_id_of (snd pc)) (map fst seen)) config_files /\
  (forall i pc, nth_error config_files i = Some pc ->
     google_sheet_sync (List.length seen + i)%nat (snd pc) = None).
Proof.
  induction config_files as [|[path raw] rest IH]; intros seen; cbn [update_loop].
  - split; [|reflexivity]. intros _.
    split; [constructor|]. split; [constructor|]. split; [constructor|].
    intros [|i] pc Hi; discriminate Hi.
  - rewrite !Forall_cons_iff. cbn [map snd]. rewrite NoDup_cons_iff.
    destruct (validate_config current_year raw) as [cfg|m] eqn:V.
    2: { cbn [snd]. split; [discriminate|]. intros ((H & _) & _). cbn [snd] in H. congruence. }
    pose proof (validate_config_inl _ _ _ V) as ->.
    destruct (find (fun kv => String.eqb (fst kv) (draft_id_of raw)) seen) as [[k p]|] eqn:F.
    { cbn [snd]. split; [discriminate|].
      intros (_ & _ & [Hn _] & _). apply find_key_none in Hn. congruence. }
    apply find_key_none in F.
    destruct (google_sheet_sync (List.length seen) raw) as [e|] eqn:Hsync.
    { cbn [snd]. split; [discriminate|]. intros (_ & _ & _ & Hs).
      specialize (Hs 0%nat (path, raw) eq_refl). cbn [snd] in Hs.
      rewrite Nat.add_0_r in Hs. congruence. }
    destruct (update_loop current_year google_sheet_sync
                ((draft_id_of raw, path) :: seen) rest) as [ev err] eqn:U.
    cbn [snd]. specialize (IH ((draft_id_of raw, path) :: seen)).
    rewrite U in IH. cbn [snd map fst List.length] in IH. rewrite IH.
    split.
    + intros (Hv & Hd & Hns & Hs). split; [split; [reflexivity|exact Hv]|].
      rewrite Forall_forall in Hns.
      split; [split; [|exact Hd]|split; [split; [exact F|]|]].
      * intros Hin. apply in_map_iff in Hin as (pc & Hpc & Hin).
        apply (Hns pc Hin). left. congruence.
      * apply Forall_forall. intros pc Hin Hc. apply (Hns pc Hin). right. exact Hc.
      * intros [|i] pc Hi; cbn in Hi.
        -- injection Hi as <-. rewrite Nat.add_0_r. exact Hsync.
        -- rewrite <- (Hs i pc Hi). f_equal. lia.
    + intros ((_ & Hv) & (Hn & Hd) & (_ & Hns) & Hs).
      split; [exact Hv|]. split; [exact Hd|]. split.
      * rewrite Forall_forall in Hns |- *. intros pc Hin [Hc|Hc].
        -- apply Hn. apply in_map_iff. exists pc. split; [symmetry; exact Hc | exact Hin].
        -- exact (Hns pc Hin Hc).
      * intros i pc Hi. rewrite <- (Hs (S i) pc Hi). f_equal. lia.
Qed.

Lemma update_loop_events (current_year : Z)
    (google_sheet_sync : nat -> config -> option string)
    (config_files : list (string * config)) :
  forall seen,
  snd (update_loop current_year google_sheet_sync seen config_files) = None ->
  fst (update_loop current_year google_sheet_sync seen config_files)
  = map (fun pc => Sync (draft_id_of (snd pc))) config_files.
Proof.
  induction config_files as [|[path raw] rest IH]; intros seen; cbn [update_loop];
    [reflexivity|].
  destruct (validate_config current_year raw) as [cfg|m] eqn:V; [|discriminate].
  pose proof (validate_config_inl _ _ _ V) as ->.
  destruct (find _ seen) as [[k p]|]; [discriminate|].
  destruct (google_sheet_sync _ raw); [discriminate|].
  specialize (IH ((draft_id_of raw, path) :: seen)).
  destruct (update_loop current_year google_sheet_sync _ rest) as [ev err].
  cbn [fst snd] in *. intros H. rewrite (IH H). reflexivity.
Qed.

Lemma update_loop_distinct (current_year : Z)
    (google_sheet_sync : nat -> config -> option string)
    (config_files : list (string * config)) :
  forall seen,
  NoDup (map sync_id (fst (update_loop current_year google_sheet_sync seen config_files))) /\
  Forall (fun e => ~ In (sync_id e) (map fst seen))
    (fst (update_loop current_year google_sheet_sync seen config_files)).
Proof.
  induction config_files as [|[path raw] rest IH]; intros seen; cbn [update_loop].
  - split; constructor.
  - destruct (validate_config current_year raw) as [cfg|m];
      [|split; constructor].
    destruct (find (fun kv => String.eqb (fst kv) (draft_id_of cfg)) seen) as [[k p]|] eqn:F;
      [split; constructor|].
    apply find_key_none in F.
    destruct (google_sheet_sync _ cfg).
    { cbn [fst map sync_id]. split; [constructor; [intros []|constructor]|].
      constructor; [exact F|constructor]. }
    specialize (IH ((draft_id_of cfg, path) :: seen)).
    destruct (update_loop current_year google_sheet_sync _ rest) as [ev err].
    cbn [fst map sync_id] in *.
    destruct IH as [Hd Hs]. rewrite Forall_forall in Hs.
    split.
    + constructor; [|exact Hd]. intros Hin. apply in_map_iff in Hin as (e & He & Hin).
      apply (Hs e Hin). left. congruence.
    + constructor; [exact F|]. apply Forall_forall. intros e Hin Hc.
      apply (Hs e Hin). right. exact Hc.
Qed.



(** ** Missing-movie diagnostic *)

Lemma mem_name_In (x : string) (l : list string) : mem_name x l = true <-> In x l.
Proof.
  unfold mem_name. rewrite existsb_exists. split.
  - intros (y & Hy & E). apply String.eqb_eq in E. now subst.
  - intros H. exists x. split; [exact H | apply String.eqb_refl].
Qed.

Lemma dedup_In (x : string) (l : list string) : In x (dedup l) <-> In x l.
Proof.
  induction l as [|y l IH]; cbn [dedup]; [reflexivity|].
  destruct (mem_name y l) eqn:E; cbn [In]; rewrite IH; [|reflexivity].
  apply mem_name_In in E. split; [tauto|]. intros [->|H]; auto.
Qed.

Lemma dedup_NoDup (l : list string) : NoDup (dedup l).
Proof.
  induction l as [|y l IH]; cbn [dedup]; [constructor|].
  destruct (mem_name y l) eqn:E; [exact IH|].
  constructor; [|exact IH]. rewrite dedup_In. intros H.
  apply mem_name_In in H. congruence.
Qed.

(** C9: [log_missing_movies] reports exactly the titles, after [str()], that
    are drafted and not released, once each, sorted, comma-joined, and the
    success message when there are none; drafted {A, B, C} against
    released {A, B} reports C. *)
Theorem log_missing_movies_spec (drafted released : list py_value) :
  let ms := missing_movies drafted released in
  (forall t, In t ms <-> In t (map py_str drafted) /\ ~ In t (map py_str released)) /\
  NoDup ms /\
  Sorted (fun a b => String.leb a b = true) ms /\
  log_missing_movies drafted released
  = match ms with
    | [] => ["All movies are on the scoreboard."]
    | _ => ["The following movies are missing from the scoreboard and should be added to the manual_adds.csv file:";
            join ", " ms]
    end /\
  log_missing_movies [VStr "A"; VStr "B"; VStr "C"] [VStr "A"; VStr "B"]
  = ["The following movies are missing from the scoreboard and should be added to the manual_adds.csv file:";
     "C"].
Proof.
  cbv zeta. split; [|split; [|split; [|split]]].
  4: { unfold log_missing_movies.
       destruct (missing_movies drafted released); reflexivity. }
  4: { vm_compute. reflexivity. }
  all: unfold missing_movies.
  all: set (l := filter _ (dedup (map py_str drafted))).
  all: pose proof (StringSort.Permuted_sort l) as HP.
  - intros t. split; [intros Ht; apply (Permutation_in _ (Permutation_sym HP)) in Ht
                     | intros Ht; apply (Permutation_in _ HP)]; revert Ht; unfold l.
    all: rewrite filter_In, dedup_In, negb_true_iff.
    all: intros [H1 H2]; split; auto.
    + intros H. apply mem_name_In in H. congruence.
    + destruct (mem_name t (map py_str released)) eqn:E; [|reflexivity].
      apply mem_name_In in E. contradiction.
  - apply (Permutation_NoDup HP). unfold l. apply NoDup_filter, dedup_NoDup.
  - apply StringSort.Sorted_sort.
Qed.

(** ** Further properties *)

Ltac crush_str :=
  match goal with
  | s : string |- _ =>
      destruct s as [|?c s];
      [cbn; intuition discriminate
      | destruct c as [[] [] [] [] [] [] [] []]; cbn; try (intuition discriminate); try crush_str]
  end.

Lemma update_type_check_nil (o : option py_value) (m : string) :
  (match o with
   | Some (VStr "s3") | Some (VStr "web") => []
   | Some _ => [m]
   | None => []
   end) = [] <-> o = None \/ o = Some (VStr "s3") \/ o = Some (VStr "web").
Proof.
  destruct o as [[z|s|b| |n]|]; try (intuition discriminate).
  assert (H : forall s', Some (VStr s) = Some (VStr s') <-> s = s')
    by (intros; split; [intros H; inversion H|intros ->]; auto).
  rewrite !H. clear H. crush_str.
Qed.

Lemma check_required_nil (fields : list (string * py_type)) (c : config) :
  check_required fields c = ([], []) <->
  Forall (fun ft => exists v, lookup (fst ft) c = Some v /\ isinstance v (snd ft) = true)
    fields.
Proof.
  induction fields as [|[field t] fields IH]; cbn [check_required].
  - split; auto.
  - rewrite Forall_cons_iff, <- IH. cbn [fst snd].
    destruct (check_required fields c) as [missing type_errors].
    destruct (lookup field c) as [v|]; [destruct (isinstance v t) eqn:I|].
    + split; [intros H; split; [eauto|exact H] | intros [_ H]; exact H].
    + split; [intros H; inversion H | intros [(v' & Hv & Hi) _]].
      inversion Hv; subst. congruence.
    + split; [intros H; inversion H | intros [(v' & Hv & Hi) _]]. discriminate.
Qed.

Lemma validate_config_match_inl {A : Type} (m e : list string) (c : A) (msg : string) :
  (match m, e with [], [] => inl c | _, _ => inr msg end) = inl c <-> m = [] /\ e = [].
Proof.
  destruct m, e; split; intros H; try discriminate; try (destruct H; discriminate); auto.
Qed.

Lemma extra_errors_nil (current_year : Z) (c : config) :
  extra_errors current_year c = [] <->
  (forall v, lookup "year" c = Some v -> isinstance v TInt = true ->
     int_value v = current_year - 1 \/ int_value v = current_year) /\
  (lookup "update_type" c = None \/ lookup "update_type" c = Some (VStr "s3")
   \/ lookup "update_type" c = Some (VStr "web")) /\
  (lookup "update_type" c = Some (VStr "s3") ->
     has_key "bucket" c = true /\ has_key "s3_access_key_id_var_name" c = true /\
     has_key "s3_secret_access_key_var_name" c = true).
Proof.
  unfold extra_errors.
  rewrite <- (update_type_check_nil (lookup "update_type" c) "update_type: must be 's3' or 'web'").
  split.
  - intros H. apply app_eq_nil in H as [Hy H]. apply app_eq_nil in H as [Hu Hs].
    split; [|split; [exact Hu|]].
    + intros v Hv Hi. rewrite Hv, Hi in Hy.
      destruct ((int_value v =? current_year - 1) || (int_value v =? current_year)) eqn:E;
        [|discriminate].
      apply orb_true_iff in E as [E|E]; apply Z.eqb_eq in E; auto.
    + intros Hs3. rewrite Hs3 in Hs.
      destruct (has_key "bucket" c), (has_key "s3_access_key_id_var_name" c),
               (has_key "s3_secret_access_key_var_name" c); try discriminate; auto.
  - intros (Hy & Hu & Hs). rewrite Hu.
    assert (Hs' : match lookup "update_type" c with
        | Some (VStr "s3") =>
            (if has_key "bucket" c then []
             else ["bucket: required when update_type is 's3'"])
            ++ (if has_key "s3_access_key_id_var_name" c then []
                else ["s3_access_key_id_var_name: required when update_type is 's3'"])
            ++ (if has_key "s3_secret_access_key_var_name" c then []
                else ["s3_secret_access_key_var_name: required when update_type is 's3'"])
        | _ => [] end = []).
    { destruct (lookup "update_type" c) as [[z|s|b| |n]|] eqn:U; try reflexivity.
      destruct (String.eqb_spec s "s3") as [->|Hne].
      + destruct (Hs eq_refl) as (-> & -> & ->). reflexivity.
      + apply (update_type_check_nil (Some (VStr s)) "update_type: must be 's3' or 'web'") in Hu.
        destruct Hu as [Hu|[Hu|Hu]]; inversion Hu; subst; [contradiction|reflexivity]. }
    rewrite Hs'. rewrite !app_nil_r.
    destruct (lookup "year" c) as [v|]; [|reflexivity].
    destruct (isinstance v TInt) eqn:I; [|reflexivity].
    destruct (Hy v eq_refl I) as [E|E]; cbv zeta; rewrite E, Z.eqb_refl;
      rewrite ?orb_true_r; reflexivity.
Qed.

(** X1: [validate_config] of config.py returns the config unchanged exactly
    when every required field is present with the right type, the year is
    the current or the previous one, update_type is 's3' or 'web', and with
    's3' the bucket and both key-name fields are present. *)
Theorem validate_config_accepts (current_year : Z) (c : config) :
  validate_config current_year c = inl c <->
  Forall (fun ft => exists v, lookup (fst ft) c = Some v /\ isinstance v (snd ft) = true)
    required_fields /\
  (exists v, lookup "year" c = Some v /\
     (int_value v = current_year - 1 \/ int_value v = current_year)) /\
  (lookup "update_type" c = Some (VStr "s3") \/ lookup "update_type" c = Some (VStr "web")) /\
  (lookup "update_type" c = Some (VStr "s3") ->
     has_key "bucket" c = true /\ has_key "s3_access_key_id_var_name" c = true /\
     has_key "s3_secret_access_key_var_name" c = true).
Proof.
  unfold validate_config.
  destruct (check_required required_fields c) as [m e] eqn:E.
  rewrite validate_config_match_inl.
  split.
  - intros [-> He]. apply app_eq_nil in He as [-> Hx].
    apply check_required_nil in E.
    apply extra_errors_nil in Hx as (Hy & Hu & Hs).
    pose proof E as E'.
    unfold required_fields in E'. rewrite !Forall_cons_iff in E'. cbn [fst snd] in E'.
    destruct E' as ((vy & Ly & Iy) & _ & _ & _ & (vu & Lu & Iu) & _).
    split; [exact E|]. split; [|split; [|exact Hs]].
    + exists vy. split; [exact Ly|]. apply (Hy vy Ly Iy).
    + destruct Hu as [Hu|Hu]; [congruence|exact Hu].
  - intros (Hf & (vy & Ly & Ry) & Hu & Hs).
    apply check_required_nil in Hf. rewrite Hf in E. inversion E; subst.
    split; [reflexivity|]. cbn [app]. apply extra_errors_nil.
    split; [|split; [right; exact Hu|exact Hs]].
    intros v Lv _. rewrite Ly in Lv. inversion Lv; subst. exact Ry.
Qed.

Lemma check_required_ext (fields : list (string * py_type)) (c1 c2 : config) :
  (forall f, In f (map fst fields) -> lookup f c1 = lookup f c2) ->
  check_required fields c1 = check_required fields c2.
Proof.
  induction fields as [|[field t] fields IH]; intros H; [reflexivity|].
  cbn [check_required]. rewrite IH by (intros f Hf; apply H; right; exact Hf).
  rewrite (H field) by (left; reflexivity). reflexivity.
Qed.

Ltac in_checked := unfold checked_keys, required_fields; cbn [map fst app];
  repeat (first [left; reflexivity | right]).

Lemma validate_config_ext (current_year : Z) (c1 c2 : config)
    (Hk : forall k, In k checked_keys -> lookup k c1 = lookup k c2) :
  match validate_config current_year c1, validate_config current_year c2 with
  | inl _, inl _ => True
  | inr msg1, inr msg2 => msg1 = msg2
  | _, _ => False
  end.
Proof.
  assert (Hc : check_required required_fields c1 = check_required required_fields c2).
  { apply check_required_ext. intros f Hf. apply Hk. unfold checked_keys.
    apply in_or_app. left. exact Hf. }
  assert (He : extra_errors current_year c1 = extra_errors current_year c2).
  { unfold extra_errors, has_key.
    rewrite (Hk "year"), (Hk "update_type"), (Hk "bucket"),
            (Hk "s3_access_key_id_var_name"), (Hk "s3_secret_access_key_var_name")
      by in_checked.
    reflexivity. }
  unfold validate_config. rewrite Hc, He.
  destruct (check_required required_fields c2) as [[|m ms] e];
    [destruct (e ++ extra_errors current_year c2)|]; exact I || reflexivity.
Qed.

(** X2: two configs that agree on the required fields, update_type, bucket
    and the two S3 key-name fields are both accepted or both rejected with
    the same message: no other key affects [validate_config]. *)
Theorem validate_config_checked_keys (current_year : Z) (c1 c2 : config)
    (Hk : forall k, In k checked_keys -> lookup k c1 = lookup k c2) :
  match validate_config current_year c1, validate_config current_year c2 with
  | inl _, inl _ => True
  | inr msg1, inr msg2 => msg1 = msg2
  | _, _ => False
  end.
Proof. exact (validate_config_ext current_year c1 c2 Hk). Qed.

Lemma lookup_set_in_place (k k' : string) (v : py_value) (c : config) :
  lookup k (map (fun kv => if String.eqb (fst kv) k' then (k', v) else kv) c)
  = if String.eqb k k' then (if has_key k' c then Some v else None) else lookup k c.
Proof.
  unfold has_key, lookup.
  induction c as [|[a b] c IH]; cbn [map find fst snd].
  - destruct (String.eqb k k'); reflexivity.
  - unfold has_key, lookup in IH.
    destruct (String.eqb_spec a k') as [->|Ha]; cbn [find fst snd].
    + rewrite (String.eqb_sym k' k).
      destruct (String.eqb_spec k k') as [->|Hk]; [reflexivity|].
      rewrite IH. reflexivity.
    + destruct (String.eqb_spec a k) as [->|Hak].
      * destruct (String.eqb_spec k k') as [->|]; [contradiction|reflexivity].
      * exact IH.
Qed.

Lemma find_app {A : Type} (f : A -> bool) (l1 l2 : list A) :
  find f (l1 ++ l2) = match find f l1 with Some x => Some x | None => find f l2 end.
Proof.
  induction l1 as [|x l1 IH]; [reflexivity|]. cbn. destruct (f x); [reflexivity|exact IH].
Qed.

Lemma lookup_dict_set (k k' : string) (v : py_value) (c : config) :
  lookup k (dict_set k' v c) = if String.eqb k k' then Some v else lookup k c.
Proof.
  unfold dict_set. destruct (has_key k' c) eqn:H.
  - rewrite lookup_set_in_place, H. reflexivity.
  - unfold has_key, lookup in *. rewrite find_app.
    destruct (String.eqb_spec k k') as [->|Hk].
    + destruct (find _ c); [discriminate|]. cbn. rewrite String.eqb_refl. reflexivity.
    + destruct (find (fun kv => String.eqb (fst kv) k) c); [reflexivity|].
      cbn. destruct (String.eqb_spec k' k); [congruence|reflexivity].
Qed.

(** X3: [get_config_dict] rejects an empty file with "Configuration file
    <path> is empty or invalid"; otherwise it accepts the loaded mapping
    exactly when [validate_config] accepts the mapping itself, with the same
    error message, and the accepted config maps "path" to the given value and
    every other key as the file does. *)
Theorem get_config_dict_spec (current_year : Z) (config_path : string) (path_value : py_value) :
  get_config_dict current_year config_path path_value None
  = inr ("Configuration file " ++ config_path ++ " is empty or invalid")%string /\
  forall yaml_object : config,
    match get_config_dict current_year config_path path_value (Some yaml_object),
          validate_config current_year yaml_object with
    | inl c, inl _ =>
        lookup "path" c = Some path_value /\
        forall k, k <> "path" -> lookup k c = lookup k yaml_object
    | inr msg1, inr msg2 => msg1 = msg2
    | _, _ => False
    end.
Proof.
  split; [reflexivity|]. intros y. cbn [get_config_dict].
  pose proof (validate_config_ext current_year (dict_set "path" path_value y) y) as H.
  destruct (validate_config current_year (dict_set "path" path_value y)) as [c|m] eqn:V.
  - apply validate_config_inl in V. subst c.
    destruct (validate_config current_year y); [|apply H].
    + split; [rewrite lookup_dict_set, String.eqb_refl; reflexivity|].
      intros k Hk. rewrite lookup_dict_set.
      destruct (String.eqb_spec k "path"); [contradiction|reflexivity].
    + intros k Hk. rewrite lookup_dict_set.
      destruct (String.eqb_spec k "path") as [->|]; [|reflexivity].
      unfold checked_keys, required_fields in Hk. cbn [map fst app In] in Hk.
      repeat (destruct Hk as [Hk|Hk]; [discriminate Hk|]). destruct Hk.
  - apply H. intros k Hk. rewrite lookup_dict_set.
    destruct (String.eqb_spec k "path") as [->|]; [|reflexivity].
    unfold checked_keys, required_fields in Hk. cbn [map fst app In] in Hk.
    repeat (destruct Hk as [Hk|Hk]; [discriminate Hk|]). destruct Hk.
Qed.

(** X4: [update_dashboards] finishes without an exception exactly when every
    config is valid, the draft ids are pairwise distinct and every call of
    [google_sheet_sync] returns; it has then synced every config once, in the
    order of the files. *)
Theorem update_dashboards_ok (current_year : Z)
    (google_sheet_sync : nat -> config -> option string)
    (config_files : list (string * config)) :
  (snd (update_dashboards current_year google_sheet_sync config_files) = None <->
   Forall (fun pc => validate_config current_year (snd pc) = inl (snd pc)) config_files /\
   NoDup (map (fun pc => draft_id_of (snd pc)) config_files) /\
   (forall i pc, nth_error config_files i = Some pc -> google_sheet_sync i (snd pc) = None)) /\
  (snd (update_dashboards current_year google_sheet_sync config_files) = None ->
   fst (update_dashboards current_year google_sheet_sync config_files)
   = map (fun pc => Sync (draft_id_of (snd pc))) config_files).
Proof.
  unfold update_dashboards. split; [|apply update_loop_events].
  rewrite update_loop_ok. cbn [List.length]. split.
  - intros (Hv & Hd & _ & Hs). auto.
  - intros (Hv & Hd & Hs). split; [exact Hv|]. split; [exact Hd|].
    split; [|exact Hs]. apply Forall_forall. intros pc _ H. exact H.
Qed.

(** X5: a run of [update_dashboards] never syncs the same draft id twice,
    whatever the configs and whatever [google_sheet_sync] does. *)
Theorem update_dashboards_distinct (current_year : Z)
    (google_sheet_sync : nat -> config -> option string)
    (config_files : list (string * config)) :
  NoDup (map sync_id (fst (update_dashboards current_year google_sheet_sync config_files))).
Proof. apply update_loop_distinct. Qed.

Lemma layout_both_adds_worst (sb rl wl bl : Z) :
  let L := Dashboard.calculate_picks_table_layout sb rl wl bl in
  add_both_picks_tables L = true -> (0 <? worst_picks_height L) && (1 <? wl) = true.
Proof.
  unfold Dashboard.calculate_picks_table_layout. cbv zeta.
  destruct ((2 * 2 + 2 <=? rl - sb - 3) && (1 <? wl) && (1 <? bl)) eqn:T;
    cbn [add_both_picks_tables worst_picks_height]; [|discriminate].
  intros _. apply andb_true_iff in T as [T _]. apply andb_true_iff in T as [T1 T2].
  apply Z.leb_le in T1. apply Z.ltb_lt in T2.
  apply andb_true_iff. split; apply Z.ltb_lt; [|exact T2].
  apply Z.min_glb_lt; [|lia]. apply Z.div_str_pos. lia.
Qed.

(** X6: the legacy [GoogleSheetDashboard] places the same tables, at the same
    anchors and with the same row counts, as [DashboardWorksheet.generate],
    for every table length. *)
Theorem dashboard_elements_generate (sb rl wl bl : Z) :
  dashboard_elements sb rl wl bl = generate sb rl wl bl.
Proof.
  unfold dashboard_elements, generate. cbv zeta.
  rewrite !layout_impls_agree.
  pose proof (layout_both_adds_worst sb rl wl bl) as H. cbv zeta in H.
  revert H. generalize (Dashboard.calculate_picks_table_layout sb rl wl bl) as L.
  intros L H. f_equal.
  destruct (add_both_picks_tables L).
  - rewrite (H eq_refl). reflexivity.
  - destruct ((0 <? worst_picks_height L) && (1 <? wl)); reflexivity.
Qed.

Ltac bool_facts :=
  repeat match goal with
  | H : _ && _ = true |- _ => apply andb_true_iff in H as [? ?]
  | H : _ && _ = false |- _ => apply andb_false_iff in H as [?|?]
  | H : (_ <=? _) = true |- _ => apply Z.leb_le in H
  | H : (_ <=? _) = false |- _ => apply Z.leb_gt in H
  | H : (_ <? _) = true |- _ => apply Z.ltb_lt in H
  | H : (_ <? _) = false |- _ => apply Z.ltb_ge in H
  end.

Lemma layout_rows (sb rl wl bl : Z) (Hwl : 0 <= wl) (Hbl : 0 <= bl) :
  let L := Dashboard.calculate_picks_table_layout sb rl wl bl in
  worst_picks_row_num L = sb + 7 /\
  0 <= worst_picks_height L <= wl /\ 0 <= best_picks_height L <= bl /\
  (add_both_picks_tables L = true ->
     best_picks_row_num L = Some (sb + 7 + 1 + worst_picks_height L + 2) /\
     worst_picks_height L + best_picks_height L <= rl - sb - 7) /\
  (add_both_picks_tables L = false ->
     best_picks_row_num L = None /\
     (0 < worst_picks_height L -> worst_picks_height L <= rl - sb - 3)).
Proof.
  unfold Dashboard.calculate_picks_table_layout. cbv zeta.
  destruct ((2 * 2 + 2 <=? rl - sb - 3) && (1 <? wl) && (1 <? bl)) eqn:T;
    [|destruct ((0 <? rl - sb - 3) && (1 <? wl)) eqn:T2];
    cbn [add_both_picks_tables worst_picks_row_num worst_picks_height
         best_picks_row_num best_picks_height];
    bool_facts; split_goal; try discriminate; try reflexivity;
    try (f_equal; lia); Z.div_mod_to_equations; lia.
Qed.

(** X7: for non-negative table lengths, every table of [generate] other than
    the scoreboard ends at or above row [sheet_height - 1], inside the sheet
    of [released_movies_length + 5] rows the post-run resize leaves; the
    scoreboard's last row fits in it exactly when the scoreboard has at most
    [released_movies_length + 1] rows. *)
Theorem generate_within_sheet_height (sb rl wl bl : Z)
    (Hsb : 0 <= sb) (Hrl : 0 <= rl) (Hwl : 0 <= wl) (Hbl : 0 <= bl) :
  let sheet_height := rl + 5 in
  Forall (fun a =>
      (kind a <> Scoreboard -> anchor_row a + asset_rows a <= sheet_height - 1) /\
      (kind a = Scoreboard -> (anchor_row a + asset_rows a <= sheet_height <-> sb <= rl + 1)))
    (generate sb rl wl bl).
Proof.
  cbv zeta. pose proof (layout_rows sb rl wl bl Hwl Hbl) as HL. cbv zeta in HL.
  unfold generate. cbv zeta. revert HL.
  generalize (Dashboard.calculate_picks_table_layout sb rl wl bl) as L.
  intros [av ab wr wh br bh] (Hwr & Hwh & Hbh & Hboth & Hone).
  cbn [add_both_picks_tables worst_picks_row_num worst_picks_height
       best_picks_row_num best_picks_height] in *. subst wr.
  rewrite (head_len_id wh wl), (head_len_id bh bl) by lia.
  destruct ((0 <? wh) && (1 <? wl)) eqn:Ep;
    [apply andb_true_iff in Ep as [Ep _]; apply Z.ltb_lt in Ep;
     destruct ab; [destruct (Hboth eq_refl) as [-> Hb] | destruct (Hone eq_refl) as [-> Hb]]|].
  all: cbn [app]; repeat first [apply Forall_nil | apply Forall_cons; [split; intro Hk|]].
  all: cbn [kind anchor_row asset_rows] in *; try congruence.
  all: try lia.
Qed.

Lemma clear_zero_cells_spec (values : list py_value) : forall (df_idx c r : Z),
  (In (c, r) (clear_zero_cells df_idx values) <->
   c = col_V /\ exists i v, nth_error values i = Some v /\ py_eq_zero v = true /\
                            r = 5 + df_idx + Z.of_nat i) /\
  Forall (fun cr => 5 + df_idx <= snd cr) (clear_zero_cells df_idx values) /\
  NoDup (clear_zero_cells df_idx values).
Proof.
  induction values as [|v rest IH]; intros df_idx c r; cbn [clear_zero_cells].
  - split; [|split; constructor]. split; [intros []|].
    intros (_ & i & v & Hi & _). destruct i; discriminate.
  - destruct (IH (df_idx + 1) c r) as (Hin & Hge & Hnd).
    split; [|split].
    + rewrite in_app_iff, Hin. split.
      * intros [Hz|(-> & i & v' & Hi & Hv & ->)].
        -- destruct (py_eq_zero v) eqn:Hv; [|destruct Hz].
           destruct Hz as [Hz|[]]. injection Hz as <- <-.
           split; [reflexivity|]. exists O, v. repeat split; auto. symmetry; exact (Z.add_0_r (5 + df_idx)).
        -- split; [reflexivity|]. exists (S i), v'. repeat split; auto. lia.
      * intros (-> & [|i] & v' & Hi & Hv & ->); cbn in Hi.
        -- injection Hi as <-. left. rewrite Hv. left. f_equal. lia.
        -- right. split; [reflexivity|]. exists i, v'. repeat split; auto. rewrite Nat2Z.inj_succ in *. lia.
    + apply Forall_app. split.
      * destruct (py_eq_zero v); repeat constructor. cbn [snd]. lia.
      * eapply Forall_impl; [|exact Hge]. intros x; cbn [snd]; lia.
    + destruct (py_eq_zero v); [|exact Hnd]. cbn [app]. constructor; [|exact Hnd].
      intros Hin'. rewrite Forall_forall in Hge. apply Hge in Hin'. cbn [snd] in Hin'. lia.
Qed.

(** X8: [_clear_zero_values] clears each cell once; it clears nothing when the
    dataframe is missing or empty or has no "Better Pick Scored Revenue"
    column, and otherwise exactly the cells V(5 + i) whose value at index i
    equals 0. *)
Theorem clear_zero_values_cells (df : option frame) :
  NoDup (clear_zero_values df) /\
  forall c r, In (c, r) (clear_zero_values df) <->
    exists d col, df = Some d /\ frame_empty d = false /\
      frame_column "Better Pick Scored Revenue" d = Some col /\
      c = col_V /\
      exists i v, nth_error col i = Some v /\ py_eq_zero v = true /\ r = 5 + Z.of_nat i.
Proof.
  unfold clear_zero_values.
  destruct df as [d|]; [|split; [constructor|]; intros c r; split;
    [intros []|intros (d & col & H & _); discriminate]].
  destruct (frame_empty d) eqn:He;
    [split; [constructor|]; intros c r; split;
     [intros []|intros (d' & col & H & He' & _); injection H as <-; congruence]|].
  destruct (frame_column "Better Pick Scored Revenue" d) as [col|] eqn:Hc;
    [|split; [constructor|]; intros c r; split;
     [intros []|intros (d' & col & H & _ & Hc' & _); injection H as <-; congruence]].
  destruct (clear_zero_cells_spec col 0 0 0) as (_ & _ & Hnd).
  split; [exact Hnd|]. intros c r.
  destruct (clear_zero_cells_spec col 0 c r) as (Hin & _). rewrite Hin.
  split.
  - intros (-> & i & v & Hi & Hv & ->). exists d, col. repeat split; auto.
    exists i, v. repeat split; auto.
  - intros (d' & col' & H & _ & Hc' & -> & i & v & Hi & Hv & ->).
    injection H as <-. rewrite Hc in Hc'. injection Hc' as <-.
    split; [reflexivity|]. exists i, v. repeat split; auto.
Qed.

Lemma find_delete (n m : string) (ss : spreadsheet) :
  find (fun w => String.eqb (ws_name w) n) (delete_worksheet m ss)
  = if String.eqb n m then None else find (fun w => String.eqb (ws_name w) n) ss.
Proof.
  induction ss as [|w ss IH]; [destruct (String.eqb n m); reflexivity|].
  unfold delete_worksheet in *. cbn [find filter].
  destruct (String.eqb_spec (ws_name w) m) as [Hm|Hm]; cbn [negb].
  - rewrite IH. destruct (String.eqb_spec n m) as [->|Hnm]; [reflexivity|].
    destruct (String.eqb_spec (ws_name w) n); [congruence|reflexivity].
  - cbn [find]. rewrite IH.
    destruct (String.eqb_spec (ws_name w) n) as [<-|]; [|reflexivity].
    destruct (String.eqb_spec (ws_name w) m); [contradiction|reflexivity].
Qed.

Lemma resize_delete (n : string) (r c : Z) (ss : spreadsheet) :
  resize_sheet n r c (delete_worksheet n ss) = delete_worksheet n ss.
Proof.
  induction ss as [|w ss IH]; [reflexivity|].
  unfold resize_sheet, delete_worksheet in *. cbn [filter].
  destruct (String.eqb (ws_name w) n) eqn:E; cbn [negb]; [exact IH|].
  cbn [map]. rewrite E. f_equal. exact IH.
Qed.

Lemma filter_other_delete (ss : spreadsheet) :
  filter (fun w => negb (mem_name (ws_name w) canonical_order))
    (delete_worksheet "Dashboard" ss)
  = filter (fun w => negb (mem_name (ws_name w) canonical_order)) ss.
Proof.
  induction ss as [|w ss IH]; [reflexivity|].
  unfold delete_worksheet in *. cbn [filter].
  destruct (String.eqb_spec (ws_name w) "Dashboard") as [E|E]; cbn [negb].
  - rewrite E. exact IH.
  - cbn [filter]. rewrite IH. reflexivity.
Qed.

Lemma reorder_after_recreate (h : Z) (s : spreadsheet) :
  reorder_worksheets canonical_order
    (resize_sheet "Dashboard" h 25
       (delete_worksheet "Dashboard" s ++ [mk_ws "Dashboard" 500 25]))
  = mk_ws "Dashboard" h 25
    :: flat_map (fun n => match find (fun w => String.eqb (ws_name w) n) s with
                          | Some w => [w] | None => [] end)
         ["Draft"; "Manual Adds"; "Multipliers and Exclusions"]
    ++ filter (fun w => negb (mem_name (ws_name w) canonical_order)) s.
Proof.
  unfold resize_sheet. rewrite map_app.
  fold (resize_sheet "Dashboard" h 25 (delete_worksheet "Dashboard" s)).
  rewrite resize_delete. cbn [map ws_name]. rewrite String.eqb_refl.
  unfold reorder_worksheets, canonical_order at 1. cbn [flat_map].
  rewrite !find_app, !find_delete, filter_app, filter_other_delete.
  cbn -[mem_name]. change (mem_name "Dashboard" canonical_order) with true.
  cbn -[mem_name]. rewrite !app_nil_r.
  destruct (find _ s); [|]; destruct (find _ s); destruct (find _ s); reflexivity.
Qed.

Lemma run_cycle_contents_aux (rl : Z) (ss : spreadsheet) :
  let find_ws n := find (fun w => String.eqb (ws_name w) n) ss in
  run_cycle rl ss =
    mk_ws "Dashboard" (rl + 5) 25
    :: match find_ws "Draft" with Some w => [w] | None => [] end
    ++ match find_ws "Manual Adds" with
       | Some w => w | None => mk_ws "Manual Adds" 100 5 end
    :: match find_ws "Multipliers and Exclusions" with
       | Some w => w | None => mk_ws "Multipliers and Exclusions" 100 3 end
    :: filter (fun w => negb (mem_name (ws_name w) canonical_order)) ss.
Proof.
  cbv zeta.
  unfold run_cycle, handle_missing_worksheets, resize_dashboard, adjust_worksheet_order.
  cbv zeta. rewrite !mem_name_find.
  match goal with |- context [if match find _ ss with Some _ => true | None => false end
                              then delete_worksheet "Dashboard" ?s1 else ?s1] =>
    replace (if match find (fun w => String.eqb (ws_name w) "Dashboard") ss with
                | Some _ => true | None => false end
             then delete_worksheet "Dashboard" s1 else s1)
      with (delete_worksheet "Dashboard" s1)
  end.
  2: { destruct (find (fun w => String.eqb (ws_name w) "Dashboard") ss) eqn:FD;
       [reflexivity|]. apply delete_absent.
       destruct (find (fun w => String.eqb (ws_name w) "Multipliers and Exclusions") ss),
         (find (fun w => String.eqb (ws_name w) "Manual Adds") ss);
         unfold create_worksheet; rewrite ?find_app, ?FD; reflexivity. }
  unfold create_worksheet at 1. rewrite reorder_after_recreate. f_equal.
  cbn [flat_map].
  destruct (find (fun w => String.eqb (ws_name w) "Manual Adds") ss) as [wa|] eqn:FA,
    (find (fun w => String.eqb (ws_name w) "Multipliers and Exclusions") ss) as [we|] eqn:FE;
    unfold create_worksheet; rewrite ?find_app, ?FA, ?FE, ?filter_app; cbn -[mem_name];
    rewrite ?app_nil_r, <- ?app_assoc; cbn [app];
    destruct (find (fun w => String.eqb (ws_name w) "Draft") ss); reflexivity.
Qed.


(** X9: one runner cycle leaves exactly, in this order: a Dashboard of
    [released_movies_length + 5] rows by 25 columns, the first Draft
    worksheet if there is one, the first Manual Adds (or a new 100 x 5 one),
    the first Multipliers and Exclusions (or a new 100 x 3 one), then every
    other worksheet, unchanged and in its original order. *)
Theorem run_cycle_contents (rl : Z) (ss : spreadsheet) :
  let find_ws n := find (fun w => String.eqb (ws_name w) n) ss in
  run_cycle rl ss =
    mk_ws "Dashboard" (rl + 5) 25
    :: match find_ws "Draft" with Some w => [w] | None => [] end
    ++ match find_ws "Manual Adds" with
       | Some w => w | None => mk_ws "Manual Adds" 100 5 end
    :: match find_ws "Multipliers and Exclusions" with
       | Some w => w | None => mk_ws "Multipliers and Exclusions" 100 3 end
    :: filter (fun w => negb (mem_name (ws_name w) canonical_order)) ss.
Proof. exact (run_cycle_contents_aux rl ss). Qed.

Lemma find_filter_other (n : string) (ss : spreadsheet) :
  mem_name n canonical_order = true ->
  find (fun w => String.eqb (ws_name w) n)
    (filter (fun w => negb (mem_name (ws_name w) canonical_order)) ss) = None.
Proof.
  intros Hn. induction ss as [|w ss IH]; [reflexivity|]. cbn [filter].
  destruct (String.eqb_spec (ws_name w) n) as [->|Hw].
  - rewrite Hn. exact IH.
  - destruct (negb _); [|exact IH]. cbn [find].
    destruct (String.eqb_spec (ws_name w) n); [contradiction|exact IH].
Qed.

Lemma filter_other_idem (ss : spreadsheet) :
  let nc := fun w => negb (mem_name (ws_name w) canonical_order) in
  filter nc (filter nc ss) = filter nc ss.
Proof.
  cbv zeta. induction ss as [|w ss IH]; [reflexivity|]. cbn [filter].
  destruct (negb _) eqn:E; cbn [filter]; [rewrite E|]; rewrite IH; reflexivity.
Qed.

Lemma find_some_name (n : string) (ss : spreadsheet) (w : worksheet) :
  find (fun w => String.eqb (ws_name w) n) ss = Some w -> ws_name w = n.
Proof. intros F. apply find_some in F as [_ F]. now apply String.eqb_eq. Qed.

(** X10: running the runner cycle again, with any row count, gives the same
    spreadsheet as one run with that count: a second run only resizes the
    Dashboard. *)
Theorem run_cycle_rerun (rl rl' : Z) (ss : spreadsheet) :
  run_cycle rl' (run_cycle rl ss) = run_cycle rl' ss.
Proof.
  rewrite (run_cycle_contents_aux rl' (run_cycle rl ss)), (run_cycle_contents_aux rl' ss),
    (run_cycle_contents_aux rl ss). cbv zeta.
  pose proof (find_filter_other "Draft" ss eq_refl) as E1.
  pose proof (find_filter_other "Manual Adds" ss eq_refl) as E2.
  pose proof (find_filter_other "Multipliers and Exclusions" ss eq_refl) as E3.
  pose proof (filter_other_idem ss) as E4. cbv zeta in E4.
  revert E1 E2 E3 E4.
  generalize (filter (fun w => negb (mem_name (ws_name w) canonical_order)) ss) as F.
  intros F E1 E2 E3 E4.
  destruct (find (fun w => String.eqb (ws_name w) "Draft") ss) as [[nd rd cd]|] eqn:FD;
    [apply find_some_name in FD; cbn in FD; subst nd|];
  (destruct (find (fun w => String.eqb (ws_name w) "Manual Adds") ss) as [[na ra ca]|] eqn:FA;
    [apply find_some_name in FA; cbn in FA; subst na|]);
  (destruct (find (fun w => String.eqb (ws_name w) "Multipliers and Exclusions") ss)
      as [[ne re ce]|] eqn:FE;
    [apply find_some_name in FE; cbn in FE; subst ne|]);
  cbn in E1, E2, E3, E4 |- *; rewrite ?E1, ?E2, ?E3, ?E4; reflexivity.
Qed.

Lemma legacy_update_type_check_nil (o : option py_value) (m : string) :
  (match o with
   | None | Some VNone => []
   | Some (VStr "s3") | Some (VStr "web") => []
   | Some _ => [m]
   end) = [] <->
  o = None \/ o = Some VNone \/ o = Some (VStr "s3") \/ o = Some (VStr "web").
Proof.
  destruct o as [[z|s|b| |n]|]; try (intuition discriminate).
  assert (H : forall s', Some (VStr s) = Some (VStr s') <-> s = s')
    by (intros; split; [intros H; inversion H|intros ->]; auto).
  rewrite !H. clear H. crush_str.
Qed.

Lemma legacy_extra_errors_nil (c : config) :
  ConfigTypes.extra_errors c = [] <->
  (forall s, lookup "database_file" c = Some (VStr s) ->
     ConfigTypes.ends_with ".duckdb" s = true) /\
  (lookup "update_type" c = None \/ lookup "update_type" c = Some VNone \/
   lookup "update_type" c = Some (VStr "s3") \/ lookup "update_type" c = Some (VStr "web")) /\
  (lookup "update_type" c = Some (VStr "s3") -> has_key "bucket" c = true).
Proof.
  unfold ConfigTypes.extra_errors.
  rewrite <- (legacy_update_type_check_nil (lookup "update_type" c)
                "update_type: must be 's3' or 'web'").
  split.
  - intros H. apply app_eq_nil in H as [Hd H]. apply app_eq_nil in H as [Hu Hs].
    split; [|split; [exact Hu|]].
    + intros s Hl. rewrite Hl in Hd.
      destruct (ConfigTypes.ends_with ".duckdb" s); [reflexivity|discriminate].
    + intros Hs3. rewrite Hs3 in Hs. destruct (has_key "bucket" c); [reflexivity|discriminate].
  - intros (Hd & Hu & Hs). rewrite Hu.
    assert (Hs' : match lookup "update_type" c with
        | Some (VStr "s3") =>
            if has_key "bucket" c then []
            else ["bucket: required when update_type is 's3'"]
        | _ => [] end = []).
    { destruct (lookup "update_type" c) as [[z|s|b| |n]|] eqn:U; try reflexivity.
      destruct (String.eqb_spec s "s3") as [->|Hne].
      + rewrite (Hs eq_refl). reflexivity.
      + apply (legacy_update_type_check_nil (Some (VStr s))
                 "update_type: must be 's3' or 'web'") in Hu.
        destruct Hu as [Hu|[Hu|[Hu|Hu]]]; inversion Hu; subst; [contradiction|reflexivity]. }
    rewrite Hs', !app_nil_r.
    destruct (lookup "database_file" c) as [[z|s|b| |n]|]; try reflexivity.
    rewrite (Hd s eq_refl). reflexivity.
Qed.

(** X12: [validate_config] of config_types.py returns the config unchanged
    exactly when year (int or bool), name, sheet_name and database_file (str)
    are present with those types, database_file ends with ".duckdb",
    update_type is absent, None, 's3' or 'web', and with 's3' a bucket is
    present. *)
Theorem legacy_validate_config_accepts (c : config) :
  ConfigTypes.validate_config c = inl c <->
  Forall (fun ft => exists v, lookup (fst ft) c = Some v /\ isinstance v (snd ft) = true)
    ConfigTypes.required_fields /\
  (forall s, lookup "database_file" c = Some (VStr s) ->
     ConfigTypes.ends_with ".duckdb" s = true) /\
  (lookup "update_type" c = None \/ lookup "update_type" c = Some VNone \/
   lookup "update_type" c = Some (VStr "s3") \/ lookup "update_type" c = Some (VStr "web")) /\
  (lookup "update_type" c = Some (VStr "s3") -> has_key "bucket" c = true).
Proof.
  unfold ConfigTypes.validate_config.
  destruct (check_required ConfigTypes.required_fields c) as [m e] eqn:E.
  rewrite validate_config_match_inl, <- legacy_extra_errors_nil, <- check_required_nil, E.
  split.
  - intros [-> He]. apply app_eq_nil in He as [-> Hx]. auto.
  - intros (He & Hx). inversion He; subst. auto.
Qed.

Lemma run_cycle_dashboards (rl : Z) (ss : spreadsheet) :
  dashboards (run_cycle rl ss) = [mk_ws "Dashboard" (rl + 5) 25].
Proof.
  unfold run_cycle, adjust_worksheet_order, resize_dashboard. cbv zeta.
  erewrite dashboards_reorder_single; [reflexivity|].
  rewrite dashboards_resize, handle_missing_dashboards. reflexivity.
Qed.

Lemma delete_delete (n : string) (ss : spreadsheet) :
  delete_worksheet n (delete_worksheet n ss) = delete_worksheet n ss.
Proof.
  induction ss as [|w ss IH]; [reflexivity|]. unfold delete_worksheet in *. cbn [filter].
  destruct (negb (String.eqb (ws_name w) n)) eqn:E; [cbn [filter]; rewrite E, IH|]; exact IH || reflexivity.
Qed.

(** X11: [setup_worksheet] raises the "is not set or is invalid in the .env
    file." error without credentials; with credentials that parse, it leaves
    the same single Dashboard worksheet as a runner cycle
    ([released_movies_length + 5] x 25) and every other worksheet as it
    was. *)
Theorem setup_worksheet_spec (gspread_credentials_key : string)
    (gspread_credentials : option string) (json_loads_ok : string -> bool)
    (rl : Z) (ss : spreadsheet) :
  (gspread_credentials = None ->
   setup_worksheet gspread_credentials_key gspread_credentials json_loads_ok rl ss
   = inr (CredentialsMissing
            (gspread_credentials_key ++ " is not set or is invalid in the .env file."))) /\
  (forall s, gspread_credentials = Some s -> json_loads_ok s = true ->
   exists ss',
     setup_worksheet gspread_credentials_key gspread_credentials json_loads_ok rl ss = inl ss' /\
     dashboards ss' = dashboards (run_cycle rl ss) /\
     delete_worksheet "Dashboard" ss' = delete_worksheet "Dashboard" ss).
Proof.
  split; [intros ->; reflexivity|]. intros s -> Hj.
  unfold setup_worksheet. rewrite Hj. cbv zeta. eexists. split; [reflexivity|].
  rewrite run_cycle_dashboards. unfold create_worksheet. split.
  - rewrite dashboards_app, dashboards_delete. reflexivity.
  - unfold delete_worksheet at 1. rewrite filter_app. fold (delete_worksheet "Dashboard" (delete_worksheet "Dashboard" ss)).
    rewrite delete_delete. cbn. apply app_nil_r.
Qed.

Lemma layout_both_best_row (sb rl wl bl : Z) :
  let L := Dashboard.calculate_picks_table_layout sb rl wl bl in
  add_both_picks_tables L = true -> exists r, best_picks_row_num L = Some r.
Proof.
  unfold Dashboard.calculate_picks_table_layout. cbv zeta.
  destruct ((2 * 2 + 2 <=? rl - sb - 3) && (1 <? wl) && (1 <? bl));
    cbn [add_both_picks_tables best_picks_row_num]; [eauto|discriminate].
Qed.

(** X13: the legacy [update_titles] writes the same titles, in the same cells,
    with the same merged ranges and formats, as the title hooks of the
    assets of [generate], and never hits [best_picks_row_num = None]. *)
Theorem update_titles_hooks (dashboard_name : string) (sb rl wl bl : Z) :
  update_titles dashboard_name sb rl wl bl
  = Some (map (title_hook dashboard_name) (generate sb rl wl bl)).
Proof.
  unfold update_titles, generate. cbv zeta. rewrite layout_impls_agree.
  pose proof (layout_both_best_row sb rl wl bl) as H2. cbv zeta in H2.
  revert H2. generalize (Dashboard.calculate_picks_table_layout sb rl wl bl) as L.
  intros L H2.
  destruct ((0 <? worst_picks_height L) && (1 <? wl)) eqn:Ep; [|reflexivity].
  destruct (add_both_picks_tables L) eqn:Eb.
  - destruct (H2 eq_refl) as [r ->]. reflexivity.
  - reflexivity.
Qed.

(** ** Witnesses *)

Lemma layout_heights_bounded_witness :
  let L := Gsheet.calculate_picks_table_layout 2 16 10 10 in
  0 <= worst_picks_height L <= 10 /\ 0 <= best_picks_height L <= 10.
Proof. apply (layout_heights_bounded 2 16 10 10); lia. Defined.

Lemma layout_single_table_fallback_witness :
  ~ (6 <= 8 - 2 - 3 /\ 1 < 10 /\ 1 < 10) /\
  add_both_picks_tables (Gsheet.calculate_picks_table_layout 2 8 10 10) = false.
Proof.
  split; [lia|].
  apply (layout_single_table_fallback 2 8 10 10); lia.
Defined.

Lemma generate_disjoint_witness :
  pairwise_disjoint (map footprint (generate 2 16 10 10)).
Proof. apply (generate_disjoint 2 16 10 10); lia. Defined.

Lemma validate_config_checked_keys_witness :
  (forall k, In k checked_keys ->
     lookup k (sample_config "d") = lookup k (sample_config "d" ++ [("path", VStr "a.yml")])) /\
  match validate_config 2026 (sample_config "d"),
        validate_config 2026 (sample_config "d" ++ [("path", VStr "a.yml")]) with
  | inl _, inl _ => True
  | inr msg1, inr msg2 => msg1 = msg2
  | _, _ => False
  end.
Proof.
  assert (H : forall k, In k checked_keys ->
     lookup k (sample_config "d") = lookup k (sample_config "d" ++ [("path", VStr "a.yml")])).
  { intros k Hk. unfold checked_keys, required_fields in Hk. cbn [map fst app In] in Hk.
    repeat (destruct Hk as [<-|Hk]; [reflexivity|]). destruct Hk. }
  split; [exact H|]. apply validate_config_checked_keys. exact H.
Defined.

Lemma generate_within_sheet_height_witness :
  (0 <= 2 /\ 0 <= 16 /\ 0 <= 10 /\ 0 <= 10) /\
  Forall (fun a =>
      (kind a <> Scoreboard -> anchor_row a + asset_rows a <= 16 + 5 - 1) /\
      (kind a = Scoreboard -> (anchor_row a + asset_rows a <= 16 + 5 <-> 2 <= 16 + 1)))
    (generate 2 16 10 10).
Proof.
  split; [lia|]. apply (generate_within_sheet_height 2 16 10 10); lia.
Defined.
